(** * The data-model exporter: Turtle graph to JSON Schema

    A shallow embedding of [dmExporter.py].  The exporter loads an RDF graph
    with rdflib, walks the [owl:equivalentClass] containers of a class and
    assembles one JSON Schema document per class name, then writes one
    [.json] file per class.

    rdflib itself is not part of the repository.  Its objects are modelled
    by the observations the exporter makes of them: a graph is an ordered
    store of triples with a namespace manager, [Graph.value] returns the
    first matching object, nodes are compared as rdflib compares them, and a
    literal carries the Python value rdflib computed for it. *)

From Stdlib Require Import String List ZArith Bool Lia Ascii.
Import ListNotations.
Open Scope string_scope.

(** ** Python exceptions and the error monad *)

Inductive Exception : Type :=
| AttributeError (object_type attribute : string)
| InvalidURI (uri : string)
| FileNotFoundError (file_name : string)
| BadSyntax
| KeyError (key : string)
| EOFError.

Inductive Result (A : Type) : Type :=
| Ok (a : A)
| Raise (e : Exception).

Arguments Ok {A} a.
Arguments Raise {A} e.

Definition bind {A B : Type} (m : Result A) (k : A -> Result B) : Result B :=
  match m with
  | Ok a => k a
  | Raise e => Raise e
  end.

Notation "x <- m ;; k" := (bind m (fun x => k))
  (at level 61, m at next level, right associativity).

Definition succeeds {A : Type} (m : Result A) : bool :=
  match m with Ok _ => true | Raise _ => false end.

(** ** Python dictionaries

    A [dict] keeps its keys in insertion order; assigning to a key that is
    already present replaces the value and keeps the key's position. *)

Module Dict.

Definition t (V : Type) : Type := list (string * V).

Definition empty {V : Type} : t V := [].

Fixpoint set {V : Type} (k : string) (v : V) (d : t V) : t V :=
  match d with
  | [] => [(k, v)]
  | (k', v') :: rest =>
      if String.eqb k' k then (k', v) :: rest else (k', v') :: set k v rest
  end.

Fixpoint get {V : Type} (k : string) (d : t V) : option V :=
  match d with
  | [] => None
  | (k', v') :: rest => if String.eqb k' k then Some v' else get k rest
  end.

Definition keys {V : Type} (d : t V) : list string := map fst d.

Definition mem {V : Type} (k : string) (d : t V) : bool :=
  match get k d with Some _ => true | None => false end.

End Dict.

(** ** RDF terms as rdflib holds them *)

(** The Python object behind [Literal.value].  Values of other Python types
    (Decimal, float, dates) are outside this model. *)
Inductive PyValue : Type :=
| PyNone
| PyBool (b : bool)
| PyInt (z : Z)
| PyStr (s : string).

(** Python truth value, [bool(v)]. *)
Definition py_bool (v : PyValue) : bool :=
  match v with
  | PyNone => false
  | PyBool b => b
  | PyInt z => negb (z =? 0)%Z
  | PyStr s => negb (String.eqb s EmptyString)
  end.

(** Python's [v == n] for an integer constant [n]; [True] and [False]
    compare as 1 and 0. *)
Definition py_eq_int (v : PyValue) (n : Z) : bool :=
  match v with
  | PyInt z => (z =? n)%Z
  | PyBool b => ((if b then 1 else 0) =? n)%Z
  | PyNone | PyStr _ => false
  end.

Record LiteralData : Type := mkLiteral {
  lexical : string;
  datatype : option string;
  language : option string;
  lit_value : PyValue
}.

Inductive Node : Type :=
| URIRef (iri : string)
| BNode (id : string)
| Literal (l : LiteralData).

Definition option_eqb {A : Type} (eqb : A -> A -> bool) (x y : option A) : bool :=
  match x, y with
  | None, None => true
  | Some a, Some b => eqb a b
  | _, _ => false
  end.

(** [Identifier.__eq__] and [Literal.__eq__]: same class and same text; two
    literals also need the same datatype and language. *)
Definition node_eqb (a b : Node) : bool :=
  match a, b with
  | URIRef x, URIRef y => String.eqb x y
  | BNode x, BNode y => String.eqb x y
  | Literal x, Literal y =>
      option_eqb String.eqb (datatype x) (datatype y)
      && option_eqb String.eqb (language x) (language y)
      && String.eqb (lexical x) (lexical y)
  | _, _ => false
  end.

(** [str(node)]: every rdflib term is a [str]. *)
Definition node_str (n : Node) : string :=
  match n with
  | URIRef iri => iri
  | BNode id => id
  | Literal l => lexical l
  end.

(** [str(x)] for a value that may be [None]. *)
Definition py_str (x : option Node) : string :=
  match x with
  | None => "None"
  | Some n => node_str n
  end.

(** Truth value of a term: [Literal.__bool__] looks at the Python value when
    there is one, any other term is true when its text is not empty. *)
Definition node_bool (n : Node) : bool :=
  match n with
  | Literal l =>
      match lit_value l with
      | PyNone => negb (String.eqb (lexical l) EmptyString)
      | v => py_bool v
      end
  | URIRef s | BNode s => negb (String.eqb s EmptyString)
  end.

(** Truth value of [x] where [x] may be [None]. *)
Definition truthy (x : option Node) : bool :=
  match x with
  | None => false
  | Some n => node_bool n
  end.

(** The attribute access [node.value]: only literals have it. *)
Definition get_value (n : Node) : Result PyValue :=
  match n with
  | Literal l => Ok (lit_value l)
  | URIRef _ => Raise (AttributeError "URIRef" "value")
  | BNode _ => Raise (AttributeError "BNode" "value")
  end.

(** ** Graphs *)

Record Triple : Type := mkTriple {
  subject : Node;
  predicate : Node;
  object : Node
}.

(** The namespace manager, by the compaction it computes for an IRI
    ([NamespaceManager.normalizeUri]). *)
Record NamespaceManager : Type := mkNamespaceManager {
  normalizeUri : string -> string
}.

(** The store lists the triples in the order rdflib iterates them.  rdflib
    holds each triple once; the statements below hold for any list. *)
Record Graph : Type := mkGraph {
  store : list Triple;
  namespace_manager : NamespaceManager
}.

(** [g.triples((s, None, None))] *)
Definition triples (g : Graph) (s : Node) : list Triple :=
  filter (fun t => node_eqb (subject t) s) (store g).

(** [g.objects(s, p)] *)
Definition objects (g : Graph) (s p : Node) : list Node :=
  map object
    (filter (fun t => node_eqb (subject t) s && node_eqb (predicate t) p) (store g)).

(** [g.value(s, p, None)]: the first object found, or [None]. *)
Definition value (g : Graph) (s p : Node) : option Node :=
  hd_error (objects g s p).

(** ** Compact (N3) form of a term *)

(** rdflib refuses to serialise an IRI holding one of these characters. *)
Definition invalid_uri_chars : list ascii :=
  ["<"; ">"; "034"; " "; "{"; "}"; "|"; "\"; "^"; "`"]%char.

Definition is_valid_uri (uri : string) : bool :=
  forallb (fun c => negb (existsb (Ascii.eqb c) invalid_uri_chars))
          (list_ascii_of_string uri).

Definition XSD (name : string) : string :=
  "http://www.w3.org/2001/XMLSchema#" ++ name.

(** Datatypes whose well-formed literals are printed bare. *)
Definition plain_literal_types : list string :=
  [XSD "integer"; XSD "boolean"; XSD "double"; XSD "decimal"].

Definition is_plain_literal (l : LiteralData) : bool :=
  match datatype l, lit_value l with
  | Some dt, PyNone => false
  | Some dt, _ => existsb (String.eqb dt) plain_literal_types
  | None, _ => false
  end.

Definition dquote : string := String "034"%char EmptyString.

(** [Literal.n3]: the bare text of a well-formed number or boolean, else the
    quoted text with its language tag or compacted datatype.  (rdflib also
    escapes quotes, backslashes and line breaks inside the quoted text.) *)
Definition literal_n3 (l : LiteralData) (nm : NamespaceManager) : string :=
  if is_plain_literal l then lexical l
  else
    let encoded := dquote ++ lexical l ++ dquote in
    match language l, datatype l with
    | Some lang, _ => encoded ++ "@" ++ lang
    | None, Some dt => encoded ++ "^^" ++ normalizeUri nm dt
    | None, None => encoded
    end.

(** [node.n3(namespace_manager)] *)
Definition n3 (n : Node) (nm : NamespaceManager) : Result string :=
  match n with
  | URIRef uri =>
      if is_valid_uri uri then Ok (normalizeUri nm uri) else Raise (InvalidURI uri)
  | BNode id => Ok ("_:" ++ id)
  | Literal l => Ok (literal_n3 l nm)
  end.

(** ** Vocabulary *)

Definition Terra (name : string) : Node :=
  URIRef ("http://datamodel.terra.bio/TerraDCAT_ap#" ++ name).

Definition Prov (name : string) : Node :=
  URIRef ("http://www.w3.org/ns/prov#" ++ name).

Definition OWL (name : string) : Node :=
  URIRef ("http://www.w3.org/2002/07/owl#" ++ name).

Definition RDFS (name : string) : Node :=
  URIRef ("http://www.w3.org/2000/01/rdf-schema#" ++ name).

(** ** The JSON Schema document *)

(** A value of the [properties] dictionary: one of the two fixed field
    descriptors, or the entry built for a discovered property. *)
Inductive PropertyEntry : Type :=
| FixedEntry (description type : string)
| RefEntry (description : string) (ref : option Node).

Record Document : Type := mkDocument {
  doc_id : Node;
  doc_schema : string;
  title : option Node;
  description : string;
  definitions : Dict.t PropertyEntry;
  doc_type : string;
  additionalProperties : bool;
  properties : Dict.t PropertyEntry;
  required : list string
}.

Definition initial_properties : Dict.t PropertyEntry :=
  [ ("describedBy",
     FixedEntry "The URL reference to the JSON Schema that defines this object." "string");
    ("id", FixedEntry "UUID for this entity." "string") ].

Definition initial_required : list string := ["id"; "describedBy"].

(** The state the loop of [ttl_to_json] updates. *)
Definition Collected : Type := Dict.t PropertyEntry * list string.

(** The test [cardinality and cardinality.value == 1]: [and] reads the
    attribute only when [cardinality] is true. *)
Definition cardinality_test (cardinality : option Node) : Result bool :=
  match cardinality with
  | None => Ok false
  | Some c =>
      if node_bool c then v <- get_value c ;; Ok (py_eq_int v 1) else Ok false
  end.

(** The loop body for a triple whose predicate is [owl:equivalentClass]:
    its object is the container node of one property. *)
Definition visit_container (g : Graph) (st : Collected) (container_node : Node)
  : Result Collected :=
  let '(properties, required) := st in
  let cardinality := value g container_node (OWL "cardinality") in
  match value g container_node (OWL "onProperty") with
  | None => Raise (AttributeError "NoneType" "n3")
  | Some prop =>
      ref <- n3 prop (namespace_manager g) ;;
      let rdfs_range_value := value g prop (RDFS "range") in
      key <- n3 prop (namespace_manager g) ;;
      let properties := Dict.set key (RefEntry ref rdfs_range_value) properties in
      is_one <- cardinality_test cardinality ;;
      if is_one : bool then
        k <- n3 prop (namespace_manager g) ;;
        Ok (properties, (required ++ [k])%list)
      else Ok (properties, required)
  end.

(** One pass of the loop over a triple of the class term. *)
Definition visit (g : Graph) (st : Collected) (triple : Triple) : Result Collected :=
  if node_eqb (predicate triple) (OWL "equivalentClass")
  then visit_container g st (object triple)
  else Ok st.

Fixpoint visit_all (g : Graph) (st : Collected) (term_triples : list Triple)
  : Result Collected :=
  match term_triples with
  | [] => Ok st
  | triple :: rest => st' <- visit g st triple ;; visit_all g st' rest
  end.

(** The body of [ttl_to_json] once the file is parsed into [g]. *)
Definition ttl_to_json_graph (g : Graph) (class_name : string) : Result Document :=
  let rdf_term := Terra class_name in
  st <- visit_all g (initial_properties, initial_required) (triples g rdf_term) ;;
  let '(properties, required) := st in
  Ok {| doc_id := rdf_term;
        doc_schema := "http://json-schema.org/draft-07/schema#/";
        title := value g rdf_term (RDFS "label");
        description := py_str (value g rdf_term (Prov "definition"));
        definitions := Dict.empty;
        doc_type := "object";
        additionalProperties := true;
        properties := properties;
        required := required |}.

(** ** Files, JSON and the driver *)

#[local] Set Warnings "-register-all".

Inductive Json : Type :=
| JNull
| JBool (b : bool)
| JString (s : string)
| JArray (items : list Json)
| JObject (members : list (string * Json)).

(** What a file holds: Turtle text (by the graph it parses to), text that is
    not Turtle, the text written by [json.dump] (by the value it encodes),
    or nothing yet (a file just opened for writing). *)
Inductive FileData : Type :=
| TurtleText (g : Graph)
| OtherText
| JsonText (j : Json)
| Blank.

Definition FileSystem : Type := Dict.t FileData.

(** [open(file_path, 'r')] followed by [Graph().parse(..., format='turtle')].
    An empty file is an empty Turtle document; a JSON object is not Turtle. *)
Definition load_graph (fs : FileSystem) (file_path : string) : Result Graph :=
  match Dict.get file_path fs with
  | None => Raise (FileNotFoundError file_path)
  | Some (TurtleText g) => Ok g
  | Some Blank =>
      Ok {| store := [];
            namespace_manager := {| normalizeUri := fun uri => "<" ++ uri ++ ">" |} |}
  | Some OtherText | Some (JsonText _) => Raise BadSyntax
  end.

Definition ttl_to_json (fs : FileSystem) (file_path class_name : string)
  : Result Document :=
  g <- load_graph fs file_path ;;
  ttl_to_json_graph g class_name.

(** The dictionary comprehension of [rdf_to_json], one class at a time. *)
Fixpoint rdf_to_json_from (acc : Dict.t Document) (fs : FileSystem)
  (file_path : string) (class_list : list string) : Result (Dict.t Document) :=
  match class_list with
  | [] => Ok acc
  | class_name :: rest =>
      doc <- ttl_to_json fs file_path class_name ;;
      rdf_to_json_from (Dict.set class_name doc acc) fs file_path rest
  end.

Definition rdf_to_json (fs : FileSystem) (file_path : string)
  (class_list : list string) : Result (Dict.t Document) :=
  rdf_to_json_from Dict.empty fs file_path class_list.

(** How [json.dump] sees a term: as the string it is; [None] as null. *)
Definition json_of_node (x : option Node) : Json :=
  match x with
  | None => JNull
  | Some n => JString (node_str n)
  end.

Definition json_of_entry (e : PropertyEntry) : Json :=
  match e with
  | FixedEntry d t => JObject [("description", JString d); ("type", JString t)]
  | RefEntry d r => JObject [("description", JString d); ("$ref", json_of_node r)]
  end.

Definition json_of_entries (d : Dict.t PropertyEntry) : Json :=
  JObject (map (fun kv => (fst kv, json_of_entry (snd kv))) d).

Definition json_of_document (doc : Document) : Json :=
  JObject
    [ ("$id", json_of_node (Some (doc_id doc)));
      ("$schema", JString (doc_schema doc));
      ("title", json_of_node (title doc));
      ("description", JString (description doc));
      ("definitions", json_of_entries (definitions doc));
      ("type", JString (doc_type doc));
      ("additionalProperties", JBool (additionalProperties doc));
      ("properties", json_of_entries (properties doc));
      ("required", JArray (map JString (required doc))) ].

(** Member lookup in a JSON object. *)
Definition member (k : string) (j : Json) : option Json :=
  match j with
  | JObject ms => Dict.get k ms
  | _ => None
  end.

(** The process's surroundings: the files and the lines waiting on standard
    input. *)
Record World : Type := mkWorld {
  files : FileSystem;
  stdin : list string
}.

Definition IO (A : Type) : Type := World -> World * Result A.

Definition io_ret {A : Type} (a : A) : IO A := fun w => (w, Ok a).

Definition io_bind {A B : Type} (m : IO A) (k : A -> IO B) : IO B :=
  fun w =>
    match m w with
    | (w', Ok a) => k a w'
    | (w', Raise e) => (w', Raise e)
    end.

Definition io_lift {A : Type} (r : Result A) : IO A := fun w => (w, r).

(** [path.exists] *)
Definition path_exists (name : string) : IO bool :=
  fun w => (w, Ok (Dict.mem name (files w))).

(** [input(prompt)]: the next line of standard input. *)
Definition input : IO string :=
  fun w =>
    match stdin w with
    | [] => (w, Raise EOFError)
    | line :: rest => ({| files := files w; stdin := rest |}, Ok line)
    end.

Definition store_file (name : string) (data : FileData) : IO unit :=
  fun w => ({| files := Dict.set name data (files w); stdin := stdin w |}, Ok tt).

Definition write_to_json (out_file_name : string) (json_dict : Dict.t Document)
  (key : string) : IO unit :=
  io_bind (store_file out_file_name Blank) (fun _ =>
  match Dict.get key json_dict with
  | None => io_lift (Raise (KeyError key))
  | Some doc => store_file out_file_name (JsonText (json_of_document doc))
  end).

(** The loop of [main] over the keys of [json_dict]. *)
Fixpoint write_files (json_dict : Dict.t Document) (keys : list string) : IO unit :=
  match keys with
  | [] => io_ret tt
  | key :: rest =>
      let out_file_name := key ++ ".json" in
      io_bind (path_exists out_file_name) (fun found =>
      io_bind
        (if found then
           io_bind input (fun rewrite =>
           if String.eqb rewrite "y"
           then write_to_json out_file_name json_dict key
           else io_ret tt)
         else write_to_json out_file_name json_dict key)
        (fun _ => write_files json_dict rest))
  end.

(** [main], from the pair that [get_arguments] returned. *)
Definition main (args : string * list string) : IO unit :=
  let '(file_path, class_list) := args in
  fun w =>
    match rdf_to_json (files w) file_path class_list with
    | Raise e => (w, Raise e)
    | Ok json_dict => write_files json_dict (Dict.keys json_dict) w
    end.

(** ** Vocabulary of the statements *)

(** The container nodes of a class, in the order the loop meets them: the
    objects of its [owl:equivalentClass] triples. *)
Definition containers (g : Graph) (class_name : string) : list Node :=
  objects g (Terra class_name) (OWL "equivalentClass").

(** The key a container contributes to [properties]: the compact form of
    its [owl:onProperty] value. *)
Definition container_key (g : Graph) (c : Node) : Result string :=
  match value g c (OWL "onProperty") with
  | None => Raise (AttributeError "NoneType" "n3")
  | Some prop => n3 prop (namespace_manager g)
  end.

(** The [rdfs:range] recorded for a container's property. *)
Definition container_range (g : Graph) (c : Node) : option Node :=
  match value g c (OWL "onProperty") with
  | None => None
  | Some prop => value g prop (RDFS "range")
  end.

(** The keys of a list of containers, in order. *)
Definition container_keys (g : Graph) (cs : list Node) : list string :=
  flat_map (fun c => match container_key g c with Ok k => [k] | Raise _ => [] end) cs.

Definition has_key (g : Graph) (k : string) (c : Node) : bool :=
  match container_key g c with
  | Ok k' => String.eqb k' k
  | Raise _ => false
  end.

(** The container's [owl:cardinality] is a literal whose value equals 1. *)
Definition cardinality_is_one (g : Graph) (c : Node) : bool :=
  match value g c (OWL "cardinality") with
  | Some (Literal l) => py_eq_int (lit_value l) 1
  | _ => false
  end.

(** A container the loop body gets through without raising. *)
Definition well_formed_container (g : Graph) (c : Node) : bool :=
  succeeds (container_key g c)
  && succeeds (cardinality_test (value g c (OWL "cardinality"))).

(** The loop, seen as a pass over the containers. *)
Fixpoint visit_containers (g : Graph) (st : Collected) (cs : list Node)
  : Result Collected :=
  match cs with
  | [] => Ok st
  | c :: rest => st' <- visit_container g st c ;; visit_containers g st' rest
  end.

(** Keys of a dictionary after one more assignment. *)
Definition add_key (ks : list string) (k : string) : list string :=
  if existsb (String.eqb k) ks then ks else (ks ++ [k])%list.

(** Path lookup in nested JSON objects. *)
Fixpoint lookup (path : list string) (j : Json) : option Json :=
  match path with
  | [] => Some j
  | k :: rest =>
      match member k j with
      | None => None
      | Some j' => lookup rest j'
      end
  end.

(** ** Example graphs *)

(** A namespace manager that compacts an IRI starting with a bound
    namespace to [prefix:rest] and brackets every other IRI. *)
Fixpoint compact (bindings : list (string * string)) (uri : string) : string :=
  match bindings with
  | [] => "<" ++ uri ++ ">"
  | (pfx, ns) :: rest =>
      if String.prefix ns uri && (String.length ns <? String.length uri)%nat
      then pfx ++ ":" ++ substring (String.length ns)
                                   (String.length uri - String.length ns) uri
      else compact rest uri
  end.

Definition example_manager : NamespaceManager :=
  {| normalizeUri :=
       compact [ ("ex", "http://example.org/");
                 ("xsd", XSD EmptyString);
                 ("owl", "http://www.w3.org/2002/07/owl#");
                 ("rdfs", "http://www.w3.org/2000/01/rdf-schema#") ] |}.

Definition integer_literal (text : string) (z : Z) : Node :=
  Literal {| lexical := text; datatype := Some (XSD "integer");
             language := None; lit_value := PyInt z |}.

Definition plain_literal (text : string) : Node :=
  Literal {| lexical := text; datatype := None;
             language := None; lit_value := PyStr text |}.

Definition ex_bar : Node := URIRef "http://example.org/bar".

(** Class [Foo] with one container: property [ex:bar], cardinality 1, range
    [xsd:string]. *)
Definition foo_graph : Graph :=
  {| store :=
       [ mkTriple (Terra "Foo") (OWL "equivalentClass") (BNode "b0");
         mkTriple (BNode "b0") (OWL "onProperty") ex_bar;
         mkTriple (BNode "b0") (OWL "cardinality") (integer_literal "1" 1);
         mkTriple ex_bar (RDFS "range") (URIRef (XSD "string")) ];
     namespace_manager := example_manager |}.

Definition foo_world : World :=
  {| files := [("model.ttl", TurtleText foo_graph)]; stdin := [] |}.

(** A graph without any triple. *)
Definition empty_graph : Graph :=
  {| store := []; namespace_manager := example_manager |}.

(** Class [Foo] with two containers for the same property, each with
    cardinality 1. *)
Definition twice_graph : Graph :=
  {| store :=
       [ mkTriple (Terra "Foo") (OWL "equivalentClass") (BNode "b0");
         mkTriple (Terra "Foo") (OWL "equivalentClass") (BNode "b1");
         mkTriple (BNode "b0") (OWL "onProperty") ex_bar;
         mkTriple (BNode "b0") (OWL "cardinality") (integer_literal "1" 1);
         mkTriple (BNode "b1") (OWL "onProperty") ex_bar;
         mkTriple (BNode "b1") (OWL "cardinality") (integer_literal "1" 1) ];
     namespace_manager := example_manager |}.

(** Class [Foo] with a container that has no [owl:onProperty]. *)
Definition broken_graph : Graph :=
  {| store :=
       [ mkTriple (Terra "Foo") (RDFS "label") (plain_literal "Foo");
         mkTriple (Terra "Foo") (OWL "equivalentClass") (BNode "b0");
         mkTriple (BNode "b0") (OWL "cardinality") (integer_literal "1" 1) ];
     namespace_manager := example_manager |}.

(** Class [Foo] with cardinalities 1, 0, 2 and none on four properties. *)
Definition mixed_graph : Graph :=
  {| store :=
       [ mkTriple (Terra "Foo") (OWL "equivalentClass") (BNode "b0");
         mkTriple (Terra "Foo") (RDFS "label") (plain_literal "Foo");
         mkTriple (Terra "Foo") (OWL "equivalentClass") (BNode "b1");
         mkTriple (Terra "Foo") (OWL "equivalentClass") (BNode "b2");
         mkTriple (Terra "Foo") (OWL "equivalentClass") (BNode "b3");
         mkTriple (BNode "b0") (OWL "onProperty") (URIRef "http://example.org/zero");
         mkTriple (BNode "b0") (OWL "cardinality") (integer_literal "0" 0);
         mkTriple (BNode "b1") (OWL "onProperty") (URIRef "http://example.org/one");
         mkTriple (BNode "b1") (OWL "cardinality") (integer_literal "1" 1);
         mkTriple (BNode "b2") (OWL "onProperty") (URIRef "http://example.org/two");
         mkTriple (BNode "b2") (OWL "cardinality") (integer_literal "2" 2);
         mkTriple (BNode "b3") (OWL "onProperty") (URIRef "http://example.org/none") ];
     namespace_manager := example_manager |}.

(** ** Command-line arguments *)

(** What [parser.parse_args()] returns: the required [--file-path], and the
    two optional ways of naming classes. *)
Module Args.

Record t : Type := mk {
  file_path : string;
  class_list : option (list string);
  class_path : option string
}.

End Args.

(** Messages handed to [logging]. *)
Inductive LogRecord : Type :=
| LogError (message : string)
| LogParsed (class_count : nat) (class_path : string)
| LogClassList (class_list : list string).

(** How a call ends: it returns, it leaves through [sys.exit], or an
    exception escapes. *)
Inductive Outcome (A : Type) : Type :=
| Returned (a : A)
| SystemExit (code : Z)
| Uncaught (e : Exception).

Arguments Returned {A} a.
Arguments SystemExit {A} code.
Arguments Uncaught {A} e.

(** [str.isspace] on an ASCII character: tab to carriage return, the four
    separators 28 to 31, and the space.  Lines are taken as ASCII text. *)
Definition is_space (c : ascii) : bool :=
  let n := nat_of_ascii c in
  ((9 <=? n) && (n <=? 13) || (28 <=? n) && (n <=? 32))%nat.

Fixpoint lstrip (s : string) : string :=
  match s with
  | EmptyString => EmptyString
  | String c rest => if is_space c then lstrip rest else s
  end.

Fixpoint rstrip (s : string) : string :=
  match s with
  | EmptyString => EmptyString
  | String c rest =>
      match rstrip rest with
      | EmptyString => if is_space c then EmptyString else String c EmptyString
      | kept => String c kept
      end
  end.

(** [line.strip()] *)
Definition strip (s : string) : string := rstrip (lstrip s).

(** Truth value of an optional list and of an optional string. *)
Definition list_truthy {A : Type} (x : option (list A)) : bool :=
  match x with
  | Some (_ :: _) => true
  | _ => false
  end.

Definition str_truthy (x : option string) : bool :=
  match x with
  | Some s => negb (String.eqb s EmptyString)
  | None => false
  end.

(** The loop over [enumerate(class_file)]: [class_count] is bound to the
    line's index before the body runs, blank lines included. *)
Fixpoint read_class_file (index : nat) (lines : list string)
  (class_list : list string) (class_count : nat) : list string * nat :=
  match lines with
  | [] => (class_list, class_count)
  | line :: rest =>
      let class_count := index in
      let strip_line := strip line in
      if String.eqb strip_line EmptyString
      then read_class_file (S index) rest class_list class_count
      else read_class_file (S index) rest (class_list ++ [strip_line])%list class_count
  end.

(** [get_arguments], from the parsed arguments and the text files at hand
    (each by its lines).  The last branch logs and falls off the end of the
    function, which returns [None]. *)
Definition get_arguments (args : Args.t) (text_files : Dict.t (list string))
  : list LogRecord * Outcome (option (string * list string)) :=
  match Args.class_list args, Args.class_path args with
  | None, None =>
      ([LogError "Provide a class_list 'l' or class_path 'c' argument"], SystemExit 1)
  | _, _ =>
      if list_truthy (Args.class_list args) && str_truthy (Args.class_path args) then
        ([LogError "Provide a single class_list argument"], SystemExit 1)
      else if list_truthy (Args.class_list args) then
        match Args.class_list args with
        | Some class_list => ([], Returned (Some (Args.file_path args, class_list)))
        | None => ([], Returned None)
        end
      else if str_truthy (Args.class_path args) then
        match Args.class_path args with
        | Some class_path =>
            match Dict.get class_path text_files with
            | None => ([], Uncaught (FileNotFoundError class_path))
            | Some lines =>
                let '(class_list, class_count) := read_class_file 0 lines [] 0 in
                ([LogParsed class_count class_path; LogClassList class_list],
                 Returned (Some (Args.file_path args, class_list)))
            end
        | None => ([], Returned None)
        end
      else ([LogError "Error parsing arguments, please try again..."], Returned None)
  end.

(** How the script ends. *)
Inductive Termination : Type :=
| Finished
| Exit (code : Z)
| Error (e : Exception)
| UnpackNoneTypeError.

(** The script: [main()] calls [get_arguments], unpacks its result and goes
    on with the export. *)
Definition script (args : Args.t) (text_files : Dict.t (list string)) (w : World)
  : list LogRecord * World * Termination :=
  match get_arguments args text_files with
  | (log, SystemExit code) => (log, w, Exit code)
  | (log, Uncaught e) => (log, w, Error e)
  | (log, Returned None) => (log, w, UnpackNoneTypeError)
  | (log, Returned (Some parsed)) =>
      match main parsed w with
      | (w', Ok _) => (log, w', Finished)
      | (w', Raise e) => (log, w', Error e)
      end
  end.



(** ** Facts about dictionaries *)

Module DictFacts.

Lemma keys_set {V : Type} (k : string) (v : V) (d : Dict.t V) :
  Dict.keys (Dict.set k v d) = add_key (Dict.keys d) k.
Proof.
  unfold add_key, Dict.keys.
  induction d as [| [k' v'] d IH]; simpl; [reflexivity |].
  rewrite (String.eqb_sym k k').
  destruct (String.eqb k' k) eqn:E; simpl; [reflexivity |].
  rewrite IH. destruct (existsb (String.eqb k) (map fst d)); reflexivity.
Qed.

Lemma get_set_same {V : Type} (k : string) (v : V) (d : Dict.t V) :
  Dict.get k (Dict.set k v d) = Some v.
Proof.
  induction d as [| [k' v'] d IH]; simpl.
  - now rewrite String.eqb_refl.
  - destruct (String.eqb k' k) eqn:E; simpl; rewrite E; auto.
Qed.

Lemma get_set_other {V : Type} (k k' : string) (v : V) (d : Dict.t V) :
  k <> k' -> Dict.get k' (Dict.set k v d) = Dict.get k' d.
Proof.
  intros Hne. induction d as [| [k0 v0] d IH]; simpl.
  - destruct (String.eqb_spec k k'); [contradiction | reflexivity].
  - destruct (String.eqb_spec k0 k) as [-> | Hk]; simpl.
    + destruct (String.eqb_spec k k'); [contradiction | reflexivity].
    + now rewrite IH.
Qed.

Lemma existsb_eqb_In (k : string) (ks : list string) :
  existsb (String.eqb k) ks = true <-> In k ks.
Proof.
  rewrite existsb_exists. split.
  - intros [x [Hin Heq]]. apply String.eqb_eq in Heq. now subst.
  - intros Hin. exists k. split; [assumption | apply String.eqb_refl].
Qed.

Lemma In_add_key (x k : string) (ks : list string) :
  In x (add_key ks k) <-> In x ks \/ x = k.
Proof.
  unfold add_key. destruct (existsb (String.eqb k) ks) eqn:E.
  - apply existsb_eqb_In in E. split; [auto | intros [H | ->]; assumption].
  - rewrite in_app_iff. simpl. intuition.
Qed.

Lemma NoDup_add_key (k : string) (ks : list string) :
  NoDup ks -> NoDup (add_key ks k).
Proof.
  intros Hnd. unfold add_key. destruct (existsb (String.eqb k) ks) eqn:E.
  - assumption.
  - assert (Hnot : ~ In k ks).
    { intros Hin. apply existsb_eqb_In in Hin. congruence. }
    clear E. induction Hnd as [| y l Hy Hl IH]; simpl.
    + constructor; [intros [] | constructor].
    + constructor.
      * rewrite in_app_iff. simpl. intros [H | [H | []]]; [auto |].
        subst. apply Hnot. now left.
      * apply IH. intros H. apply Hnot. now right.
Qed.

Lemma add_key_fresh (k : string) (ks : list string) :
  ~ In k ks -> add_key ks k = (ks ++ [k])%list.
Proof.
  intros Hnot. unfold add_key.
  destruct (existsb (String.eqb k) ks) eqn:E; [| reflexivity].
  apply existsb_eqb_In in E. contradiction.
Qed.

Lemma In_fold_add_key (x : string) (l ks : list string) :
  In x (fold_left add_key l ks) <-> In x ks \/ In x l.
Proof.
  revert ks. induction l as [| k l IH]; intros ks; simpl.
  - intuition.
  - rewrite IH, In_add_key. intuition.
Qed.

Lemma NoDup_fold_add_key (l ks : list string) :
  NoDup ks -> NoDup (fold_left add_key l ks).
Proof.
  revert ks. induction l as [| k l IH]; intros ks Hnd; simpl.
  - assumption.
  - apply IH, NoDup_add_key, Hnd.
Qed.

Lemma fold_add_key_fresh (l ks : list string) :
  NoDup (ks ++ l) -> fold_left add_key l ks = (ks ++ l)%list.
Proof.
  revert ks. induction l as [| k l IH]; intros ks Hnd; simpl.
  - now rewrite app_nil_r.
  - assert (Hnot : ~ In k ks).
    { apply NoDup_remove_2 in Hnd. intros H. apply Hnd.
      rewrite in_app_iff. now left. }
    rewrite add_key_fresh by assumption.
    rewrite IH; rewrite <- app_assoc; simpl; [reflexivity | assumption].
Qed.

Lemma count_occ_add_key_NoDup (k : string) (ks : list string) :
  NoDup ks -> In k ks -> count_occ string_dec ks k = 1%nat.
Proof.
  intros Hnd Hin.
  pose proof (proj1 (NoDup_count_occ string_dec ks) Hnd k) as Hle.
  apply (count_occ_In string_dec) in Hin. lia.
Qed.

End DictFacts.

(** ** Facts about the loop of [ttl_to_json] *)

Ltac inv_ok :=
  repeat match goal with
         | H : Ok _ = Ok _ |- _ => injection H as H; subst
         | H : Raise _ = Ok _ |- _ => discriminate H
         | H : Ok _ = Raise _ |- _ => discriminate H
         | H : (_, _) = (_, _) |- _ => injection H as ? ?; subst
         end.

Lemma bind_ok {A B : Type} (m : Result A) (k : A -> Result B) (b : B) :
  bind m k = Ok b -> exists a, m = Ok a /\ k a = Ok b.
Proof.
  destruct m as [a | e]; simpl; intros H; [eauto | discriminate].
Qed.

Lemma filter_filter {A : Type} (f h : A -> bool) (l : list A) :
  filter h (filter f l) = filter (fun x => f x && h x) l.
Proof.
  induction l as [| x l IH]; simpl; [reflexivity |].
  destruct (f x); simpl; [destruct (h x) |]; now rewrite IH.
Qed.

(** The containers are the objects of the class term's triples that pass the
    predicate test of the loop. *)
Lemma containers_of_triples (g : Graph) (class_name : string) :
  map object
    (filter (fun t => node_eqb (predicate t) (OWL "equivalentClass"))
            (triples g (Terra class_name)))
  = containers g class_name.
Proof.
  unfold containers, objects, triples. now rewrite filter_filter.
Qed.

(** Triples with another predicate leave the loop state alone. *)
Lemma visit_all_containers (g : Graph) (ts : list Triple) (st : Collected) :
  visit_all g st ts
  = visit_containers g st
      (map object
         (filter (fun t => node_eqb (predicate t) (OWL "equivalentClass")) ts)).
Proof.
  revert st. induction ts as [| t ts IH]; intros st; simpl; [reflexivity |].
  unfold visit at 1.
  destruct (node_eqb (predicate t) (OWL "equivalentClass")); simpl.
  - destruct (visit_container g st (object t)); simpl; [apply IH | reflexivity].
  - apply IH.
Qed.

Lemma visit_containers_app (g : Graph) (cs1 cs2 : list Node) (st : Collected) :
  visit_containers g st (cs1 ++ cs2)
  = (st' <- visit_containers g st cs1 ;; visit_containers g st' cs2).
Proof.
  revert st. induction cs1 as [| c cs1 IH]; intros st; simpl; [reflexivity |].
  destruct (visit_container g st c); simpl; [apply IH | reflexivity].
Qed.

(** When the test of line 110 evaluates, it says whether the cardinality is
    a literal of value 1. *)
Lemma cardinality_test_ok (x : option Node) (b : bool) :
  cardinality_test x = Ok b ->
  b = match x with
      | Some (Literal l) => py_eq_int (lit_value l) 1
      | _ => false
      end.
Proof.
  destruct x as [[u | i | l] |]; simpl.
  - destruct (negb (String.eqb u EmptyString)); simpl; intros H; now inv_ok.
  - destruct (negb (String.eqb i EmptyString)); simpl; intros H; now inv_ok.
  - destruct (lit_value l) as [| [|] | z | s]; simpl; intros H.
    + destruct (negb (String.eqb (lexical l) EmptyString)); now inv_ok.
    + now inv_ok.
    + now inv_ok.
    + destruct z as [| q | q]; simpl in H; inv_ok; [reflexivity | |];
        destruct q; reflexivity.
    + destruct (negb (String.eqb s EmptyString)); now inv_ok.
  - intros H; now inv_ok.
Qed.

(** What one pass over a container does when it does not raise. *)
Lemma visit_container_ok (g : Graph) (c : Node) (ps ps' : Dict.t PropertyEntry)
  (rq rq' : list string) :
  visit_container g (ps, rq) c = Ok (ps', rq') ->
  exists k,
    container_key g c = Ok k
    /\ well_formed_container g c = true
    /\ ps' = Dict.set k (RefEntry k (container_range g c)) ps
    /\ rq' = if cardinality_is_one g c then (rq ++ [k])%list else rq.
Proof.
  unfold well_formed_container, visit_container, container_key,
    container_range, cardinality_is_one.
  destruct (value g c (OWL "onProperty")) as [prop |]; [| discriminate].
  destruct (n3 prop (namespace_manager g)) as [k | e]; simpl; [| discriminate].
  destruct (cardinality_test (value g c (OWL "cardinality"))) as [b | e] eqn:E;
    simpl; [| discriminate].
  apply cardinality_test_ok in E. rewrite <- E.
  intros H. exists k. destruct b; simpl in H; inv_ok; repeat split; reflexivity.
Qed.

(** A well-formed container never makes the loop body raise. *)
Lemma visit_container_total (g : Graph) (c : Node) (st : Collected) :
  well_formed_container g c = true ->
  exists st', visit_container g st c = Ok st'.
Proof.
  destruct st as [ps rq].
  unfold well_formed_container, container_key, visit_container.
  destruct (value g c (OWL "onProperty")) as [prop |]; [| discriminate].
  destruct (n3 prop (namespace_manager g)) as [k | e]; simpl; [| discriminate].
  destruct (cardinality_test (value g c (OWL "cardinality"))) as [[|] | e];
    simpl; intros H; [eauto | eauto | discriminate].
Qed.

Lemma visit_containers_total (g : Graph) (cs : list Node) (st : Collected) :
  forallb (well_formed_container g) cs = true ->
  exists st', visit_containers g st cs = Ok st'.
Proof.
  revert st. induction cs as [| c cs IH]; intros st; simpl; [eauto |].
  intros H. apply andb_true_iff in H as [Hc Hcs].
  destruct (visit_container_total g c st Hc) as [st1 ->]. simpl. now apply IH.
Qed.

(** The loop state after a pass over the containers [cs]. *)
Lemma visit_containers_ok (g : Graph) (cs : list Node)
  (ps ps' : Dict.t PropertyEntry) (rq rq' : list string) :
  visit_containers g (ps, rq) cs = Ok (ps', rq') ->
  forallb (well_formed_container g) cs = true
  /\ length (container_keys g cs) = length cs
  /\ rq' = (rq ++ container_keys g (filter (cardinality_is_one g) cs))%list
  /\ Dict.keys ps' = fold_left add_key (container_keys g cs) (Dict.keys ps).
Proof.
  revert ps rq. induction cs as [| c cs IH]; intros ps rq; simpl.
  - intros H. inv_ok. now rewrite app_nil_r.
  - intros H. apply bind_ok in H as [[ps1 rq1] [H1 H2]].
    apply visit_container_ok in H1 as (k & Hk & Hwf & -> & ->).
    apply IH in H2 as (Hall & Hlen & -> & Hkeys).
    rewrite Hwf, Hall, Hk, Hkeys, DictFacts.keys_set. simpl.
    repeat split; [now rewrite Hlen |].
    destruct (cardinality_is_one g c); simpl.
    + rewrite Hk. simpl. now rewrite <- app_assoc.
    + reflexivity.
Qed.

(** The document that [ttl_to_json] returns is built from the final loop
    state over the class's containers. *)
Lemma ttl_to_json_graph_ok (g : Graph) (class_name : string) (doc : Document) :
  ttl_to_json_graph g class_name = Ok doc ->
  exists ps rq,
    visit_containers g (initial_properties, initial_required)
                     (containers g class_name) = Ok (ps, rq)
    /\ doc = {| doc_id := Terra class_name;
                doc_schema := "http://json-schema.org/draft-07/schema#/";
                title := value g (Terra class_name) (RDFS "label");
                description := py_str (value g (Terra class_name) (Prov "definition"));
                definitions := Dict.empty;
                doc_type := "object";
                additionalProperties := true;
                properties := ps;
                required := rq |}.
Proof.
  unfold ttl_to_json_graph.
  rewrite visit_all_containers, containers_of_triples.
  intros H. apply bind_ok in H as [[ps rq] [H1 H2]].
  exists ps, rq. split; [assumption | now inv_ok].
Qed.

Lemma ttl_to_json_graph_total (g : Graph) (class_name : string) :
  forallb (well_formed_container g) (containers g class_name) = true ->
  exists doc, ttl_to_json_graph g class_name = Ok doc.
Proof.
  intros H. unfold ttl_to_json_graph.
  rewrite visit_all_containers, containers_of_triples.
  destruct (visit_containers_total g _ (initial_properties, initial_required) H)
    as [[ps rq] ->].
  simpl. eauto.
Qed.

(** Every well-formed container has a key, so [container_keys] drops none. *)
Lemma container_keys_In (g : Graph) (cs : list Node) (c : Node) :
  forallb (well_formed_container g) cs = true -> In c cs ->
  exists k, container_key g c = Ok k /\ In k (container_keys g cs).
Proof.
  induction cs as [| c' cs IH]; simpl; [intros _ [] |].
  intros H [-> | Hin]; apply andb_true_iff in H as [Hc Hcs].
  - unfold well_formed_container in Hc. apply andb_true_iff in Hc as [Hk _].
    destruct (container_key g c) as [k | e]; [| discriminate].
    exists k. split; [reflexivity | now left].
  - destruct (IH Hcs Hin) as (k & Hk & Hink). exists k. split; [assumption |].
    apply in_or_app. now right.
Qed.

Lemma In_container_keys (g : Graph) (cs : list Node) (k : string) :
  In k (container_keys g cs) <-> exists c, In c cs /\ container_key g c = Ok k.
Proof.
  unfold container_keys. rewrite in_flat_map. split.
  - intros (c & Hin & Hk). exists c. split; [assumption |].
    destruct (container_key g c) as [k' | e]; simpl in Hk; [| contradiction].
    destruct Hk as [-> | []]. reflexivity.
  - intros (c & Hin & Hk). exists c. split; [assumption |]. rewrite Hk. now left.
Qed.

Lemma container_keys_filter_incl (g : Graph) (f : Node -> bool) (cs : list Node)
  (k : string) :
  In k (container_keys g (filter f cs)) -> In k (container_keys g cs).
Proof.
  rewrite !In_container_keys. intros (c & Hin & Hk).
  apply filter_In in Hin as [Hin _]. eauto.
Qed.

Lemma count_occ_container_keys (g : Graph) (f : Node -> bool) (cs : list Node)
  (k : string) :
  count_occ string_dec (container_keys g (filter f cs)) k
  = length (filter (fun c => has_key g k c && f c) cs).
Proof.
  induction cs as [| c cs IH]; simpl; [reflexivity |].
  unfold has_key at 1.
  destruct (f c); simpl.
  - destruct (container_key g c) as [k' | e]; simpl.
    + destruct (string_dec k' k) as [-> | Hne].
      * rewrite String.eqb_refl. simpl. now rewrite IH.
      * destruct (String.eqb_spec k' k); [contradiction | simpl; apply IH].
    + apply IH.
  - rewrite andb_false_r. apply IH.
Qed.

Lemma well_formed_filter (g : Graph) (f : Node -> bool) (cs : list Node) :
  forallb (well_formed_container g) cs = true ->
  forallb (well_formed_container g) (filter f cs) = true.
Proof.
  rewrite !forallb_forall. intros H c Hin.
  apply filter_In in Hin as [Hin _]. now apply H.
Qed.

(** The keys of well-formed containers line up with the containers. *)
Lemma container_keys_Forall2 (g : Graph) (cs : list Node) :
  forallb (well_formed_container g) cs = true ->
  Forall2 (fun c k => container_key g c = Ok k) cs (container_keys g cs).
Proof.
  induction cs as [| c cs IH]; simpl; intros H; [constructor |].
  apply andb_true_iff in H as [Hc Hcs].
  unfold well_formed_container in Hc. apply andb_true_iff in Hc as [Hk _].
  destruct (container_key g c) as [k | e] eqn:E; [| discriminate].
  simpl. constructor; [assumption | now apply IH].
Qed.

Lemma visit_container_missing (g : Graph) (c : Node) (st : Collected) :
  value g c (OWL "onProperty") = None ->
  visit_container g st c = Raise (AttributeError "NoneType" "n3").
Proof.
  intros H. destruct st as [ps rq]. unfold visit_container. now rewrite H.
Qed.

(** A term that is the subject of no triple has no value for any
    predicate. *)
Lemma value_without_triples (g : Graph) (s p : Node) :
  triples g s = [] -> value g s p = None.
Proof.
  unfold triples, value, objects. intros H.
  rewrite <- filter_filter, H. reflexivity.
Qed.

(** ** The claims about [ttl_to_json] *)

(** C1. A property discovered via an [owl:equivalentClass] container is
    appended to [required] exactly when the container's [owl:cardinality]
    equals 1: after the two fixed names, [required] lists the keys of the
    containers of cardinality 1 and nothing else.  A cardinality that is
    absent, 0 or above 1 is not "equal to 1", and every container's key is
    in [properties] whatever its cardinality. *)
Theorem required_iff_cardinality_one (g : Graph) (class_name : string)
  (doc : Document) :
  ttl_to_json_graph g class_name = Ok doc ->
  required doc
  = "id" :: "describedBy"
      :: container_keys g (filter (cardinality_is_one g) (containers g class_name))
  /\ (forall k,
        In k (container_keys g
                (filter (cardinality_is_one g) (containers g class_name)))
        <-> exists c, In c (containers g class_name)
                      /\ container_key g c = Ok k
                      /\ cardinality_is_one g c = true)
  /\ (forall c, In c (containers g class_name) ->
        exists k, container_key g c = Ok k
                  /\ In k (Dict.keys (properties doc)))
  /\ (forall c, value g c (OWL "cardinality") = None ->
        cardinality_is_one g c = false)
  /\ (forall c l z,
        value g c (OWL "cardinality") = Some (Literal l) ->
        lit_value l = PyInt z ->
        (cardinality_is_one g c = true <-> z = 1%Z)).
Proof.
  intros H. apply ttl_to_json_graph_ok in H as (ps & rq & Hloop & ->).
  apply visit_containers_ok in Hloop as (Hwf & Hlen & -> & Hkeys). simpl.
  repeat split.
  - rewrite In_container_keys. intros (c & Hin & Hk).
    apply filter_In in Hin as [Hin Hone]. eauto.
  - rewrite In_container_keys. intros (c & Hin & Hk & Hone).
    exists c. split; [apply filter_In; auto | assumption].
  - intros c Hin. destruct (container_keys_In g _ c Hwf Hin) as (k & Hk & Hink).
    exists k. split; [assumption |].
    rewrite Hkeys, DictFacts.In_fold_add_key. now right.
  - intros c Hc. unfold cardinality_is_one. now rewrite Hc.
  - unfold cardinality_is_one. rewrite H, H0. simpl. apply Z.eqb_eq.
  - unfold cardinality_is_one. rewrite H, H0. simpl. apply Z.eqb_eq.
Qed.

Lemma required_iff_cardinality_one_witness :
  exists doc,
    ttl_to_json_graph mixed_graph "Foo" = Ok doc
    /\ required doc = ["id"; "describedBy"; "ex:one"]
    /\ Dict.keys (properties doc)
       = ["describedBy"; "id"; "ex:zero"; "ex:one"; "ex:two"; "ex:none"].
Proof.
  eexists. split; [vm_compute; reflexivity |].
  match goal with
  | |- context [required ?d] =>
      destruct (required_iff_cardinality_one mixed_graph "Foo" d eq_refl)
        as [Hreq _]
  end.
  split; [exact Hreq | reflexivity].
Defined.

(** C2. Whenever extraction succeeds, the document's [$id] is the class IRI
    made of the base namespace [http://datamodel.terra.bio/TerraDCAT_ap#]
    followed by the class name, and its [$schema] is one fixed draft-07
    string, whatever the graph. *)
Theorem id_and_schema (g : Graph) (class_name : string) (doc : Document) :
  ttl_to_json_graph g class_name = Ok doc ->
  doc_id doc = URIRef ("http://datamodel.terra.bio/TerraDCAT_ap#" ++ class_name)
  /\ doc_schema doc = "http://json-schema.org/draft-07/schema#/"
  /\ lookup ["$id"] (json_of_document doc)
     = Some (JString ("http://datamodel.terra.bio/TerraDCAT_ap#" ++ class_name))
  /\ lookup ["$schema"] (json_of_document doc)
     = Some (JString "http://json-schema.org/draft-07/schema#/").
Proof.
  intros H. apply ttl_to_json_graph_ok in H as (ps & rq & _ & ->).
  repeat split.
Qed.

Lemma id_and_schema_witness :
  exists doc,
    ttl_to_json_graph foo_graph "Foo" = Ok doc
    /\ doc_id doc = URIRef "http://datamodel.terra.bio/TerraDCAT_ap#Foo"
    /\ doc_schema doc = "http://json-schema.org/draft-07/schema#/".
Proof.
  eexists. split; [vm_compute; reflexivity |].
  match goal with
  | |- context [doc_id ?d] =>
      destruct (id_and_schema foo_graph "Foo" d eq_refl) as (Hid & Hschema & _)
  end.
  split; [exact Hid | exact Hschema].
Defined.

(** C3, as stated, fails: two containers for the same property give one
    entry, so [properties] can hold fewer entries than two plus the number
    of [owl:equivalentClass] triples of the class. *)
Lemma one_entry_per_triple_counterexample :
  ~ (forall g class_name doc,
        ttl_to_json_graph g class_name = Ok doc ->
        NoDup (containers g class_name) ->
        length (Dict.keys (properties doc))
        = (2 + length (containers g class_name))%nat).
Proof.
  intros H.
  assert (Hdoc : exists doc, ttl_to_json_graph twice_graph "Foo" = Ok doc
                             /\ length (Dict.keys (properties doc)) = 3%nat).
  { eexists. split; vm_compute; reflexivity. }
  destruct Hdoc as (doc & Hdoc & Hlen).
  specialize (H twice_graph "Foo" doc Hdoc).
  rewrite Hlen in H.
  assert (Hnd : NoDup (containers twice_graph "Foo")).
  { vm_compute. repeat constructor; simpl; intuition discriminate. }
  specialize (H Hnd). vm_compute in H. discriminate.
Qed.

(** C3, amended.  The keys of [properties] are [describedBy], [id] and the
    compact key of every container of the class, each key once; every
    container has such a key; and when these keys are pairwise distinct and
    differ from the two fixed ones, [properties] holds the two fixed entries
    followed by one entry per [owl:equivalentClass] triple, in discovery
    order. *)
Theorem properties_keys (g : Graph) (class_name : string) (doc : Document) :
  ttl_to_json_graph g class_name = Ok doc ->
  NoDup (Dict.keys (properties doc))
  /\ (forall k,
        In k (Dict.keys (properties doc))
        <-> k = "describedBy" \/ k = "id"
            \/ exists c, In c (containers g class_name)
                         /\ container_key g c = Ok k)
  /\ Forall2 (fun c k => container_key g c = Ok k)
             (containers g class_name)
             (container_keys g (containers g class_name))
  /\ (NoDup ("describedBy" :: "id"
               :: container_keys g (containers g class_name)) ->
      Dict.keys (properties doc)
      = "describedBy" :: "id" :: container_keys g (containers g class_name)).
Proof.
  intros H. apply ttl_to_json_graph_ok in H as (ps & rq & Hloop & ->).
  apply visit_containers_ok in Hloop as (Hwf & Hlen & _ & Hkeys).
  simpl in *. rewrite Hkeys. repeat split.
  - apply DictFacts.NoDup_fold_add_key.
    repeat constructor; simpl; intuition discriminate.
  - rewrite DictFacts.In_fold_add_key, In_container_keys. simpl.
    intros [[<- | [<- | []]] | Hc]; auto.
  - rewrite DictFacts.In_fold_add_key, In_container_keys. simpl.
    intros [-> | [-> | Hc]]; auto.
  - now apply container_keys_Forall2.
  - intros Hnd. now apply (DictFacts.fold_add_key_fresh _ ["describedBy"; "id"]).
Qed.

Lemma properties_keys_witness :
  exists doc,
    ttl_to_json_graph mixed_graph "Foo" = Ok doc
    /\ NoDup ("describedBy" :: "id"
                :: container_keys mixed_graph (containers mixed_graph "Foo"))
    /\ Dict.keys (properties doc)
       = "describedBy" :: "id"
           :: container_keys mixed_graph (containers mixed_graph "Foo").
Proof.
  eexists. split; [vm_compute; reflexivity |].
  assert (Hnd : NoDup ("describedBy" :: "id"
                         :: container_keys mixed_graph
                              (containers mixed_graph "Foo"))).
  { vm_compute. repeat constructor; simpl; intuition discriminate. }
  split; [exact Hnd |].
  match goal with
  | |- context [properties ?d] =>
      destruct (properties_keys mixed_graph "Foo" d eq_refl) as (_ & _ & _ & Hk)
  end.
  exact (Hk Hnd).
Defined.

(** C7. Whenever extraction succeeds, every name in [required] is a key of
    [properties], and after the two fixed names [required] holds the keys of
    the qualifying containers (cardinality 1), one per container and in the
    order the loop met them. *)
Theorem required_subset_in_order (g : Graph) (class_name : string)
  (doc : Document) :
  ttl_to_json_graph g class_name = Ok doc ->
  (forall k, In k (required doc) -> In k (Dict.keys (properties doc)))
  /\ firstn 2 (required doc) = ["id"; "describedBy"]
  /\ Forall2 (fun c k => container_key g c = Ok k)
             (filter (cardinality_is_one g) (containers g class_name))
             (skipn 2 (required doc)).
Proof.
  intros H. apply ttl_to_json_graph_ok in H as (ps & rq & Hloop & ->).
  apply visit_containers_ok in Hloop as (Hwf & Hlen & -> & Hkeys).
  simpl. rewrite Hkeys. repeat split.
  - intros k Hin. rewrite DictFacts.In_fold_add_key. simpl.
    destruct Hin as [<- | [<- | Hin]]; auto.
    right. eapply container_keys_filter_incl, Hin.
  - apply container_keys_Forall2, well_formed_filter, Hwf.
Qed.

Lemma required_subset_in_order_witness :
  exists doc,
    ttl_to_json_graph twice_graph "Foo" = Ok doc
    /\ (forall k, In k (required doc) -> In k (Dict.keys (properties doc)))
    /\ skipn 2 (required doc) = ["ex:bar"; "ex:bar"].
Proof.
  eexists. split; [vm_compute; reflexivity |].
  match goal with
  | |- context [required ?d] =>
      destruct (required_subset_in_order twice_graph "Foo" d eq_refl)
        as (Hsub & _ & _)
  end.
  split; [exact Hsub | reflexivity].
Defined.

(** C9. When the class term has no [prov:definition], the document's
    [description] is the four-character string [None]; when it has no
    [rdfs:label], the [title] is null. *)
Theorem missing_definition_and_label (g : Graph) (class_name : string)
  (doc : Document) :
  ttl_to_json_graph g class_name = Ok doc ->
  (value g (Terra class_name) (Prov "definition") = None ->
   description doc = "None"
   /\ String.length (description doc) = 4%nat
   /\ lookup ["description"] (json_of_document doc) = Some (JString "None"))
  /\ (value g (Terra class_name) (RDFS "label") = None ->
      title doc = None
      /\ lookup ["title"] (json_of_document doc) = Some JNull).
Proof.
  intros H. apply ttl_to_json_graph_ok in H as (ps & rq & _ & ->).
  split; intros Hnone; simpl; rewrite Hnone; repeat split.
Qed.

Lemma missing_definition_and_label_witness :
  exists doc,
    ttl_to_json_graph foo_graph "Foo" = Ok doc
    /\ value foo_graph (Terra "Foo") (Prov "definition") = None
    /\ value foo_graph (Terra "Foo") (RDFS "label") = None
    /\ description doc = "None"
    /\ title doc = None.
Proof.
  eexists. split; [vm_compute; reflexivity |].
  match goal with
  | |- context [description ?d] =>
      destruct (missing_definition_and_label foo_graph "Foo" d eq_refl)
        as (Hdef & Hlabel)
  end.
  split; [reflexivity |]. split; [reflexivity |].
  split; [exact (proj1 (Hdef eq_refl)) | exact (proj1 (Hlabel eq_refl))].
Defined.

(** C10. When two or more containers of the class compact to the same key
    and each has cardinality 1, that key occurs in [required] once per such
    container, while [properties] holds it once. *)
Theorem duplicate_required_keys (g : Graph) (class_name : string)
  (doc : Document) (k : string) :
  ttl_to_json_graph g class_name = Ok doc ->
  (2 <= length (filter (fun c => has_key g k c && cardinality_is_one g c)
                       (containers g class_name)))%nat ->
  firstn 2 (required doc) = ["id"; "describedBy"]
  /\ count_occ string_dec (skipn 2 (required doc)) k
     = length (filter (fun c => has_key g k c && cardinality_is_one g c)
                      (containers g class_name))
  /\ count_occ string_dec (Dict.keys (properties doc)) k = 1%nat.
Proof.
  intros H Htwo. apply ttl_to_json_graph_ok in H as (ps & rq & Hloop & ->).
  apply visit_containers_ok in Hloop as (Hwf & Hlen & -> & Hkeys).
  simpl. repeat split.
  - apply count_occ_container_keys.
  - rewrite Hkeys. apply DictFacts.count_occ_add_key_NoDup.
    + apply DictFacts.NoDup_fold_add_key.
      repeat constructor; simpl; intuition discriminate.
    + rewrite DictFacts.In_fold_add_key. right.
      rewrite <- count_occ_container_keys in Htwo.
      apply (container_keys_filter_incl g (cardinality_is_one g)).
      apply (count_occ_In string_dec). lia.
Qed.

Lemma duplicate_required_keys_witness :
  exists doc,
    ttl_to_json_graph twice_graph "Foo" = Ok doc
    /\ count_occ string_dec (skipn 2 (required doc)) "ex:bar" = 2%nat
    /\ count_occ string_dec (Dict.keys (properties doc)) "ex:bar" = 1%nat.
Proof.
  eexists. split; [vm_compute; reflexivity |].
  assert (Htwo : (2 <= length
                        (filter (fun c => has_key twice_graph "ex:bar" c
                                          && cardinality_is_one twice_graph c)
                                (containers twice_graph "Foo")))%nat).
  { vm_compute. constructor. }
  match goal with
  | |- context [required ?d] =>
      destruct (duplicate_required_keys twice_graph "Foo" d "ex:bar" eq_refl Htwo)
        as (_ & Hcount & Hkeys)
  end.
  split; [rewrite Hcount; reflexivity | exact Hkeys].
Defined.

(** C4, as stated, fails: a class name that resolves to no triple of the
    graph does not make extraction fail. *)
Lemma unknown_class_counterexample :
  ~ (forall g class_name,
        triples g (Terra class_name) = [] ->
        succeeds (ttl_to_json_graph g class_name) = false).
Proof.
  intros H. specialize (H empty_graph "Foo" eq_refl).
  vm_compute in H. discriminate.
Qed.

(** C4, amended.  A class name that resolves to no triple still yields a
    document: the two fixed properties, the two fixed required names, a null
    title and the description [None].  More generally extraction succeeds
    whenever every container of the class is well formed, whether or not the
    label and the definition are there; a missing label gives a null title
    and a missing definition the description [None]. *)
Theorem extraction_without_triples_or_label (g : Graph) (class_name : string) :
  (triples g (Terra class_name) = [] ->
   ttl_to_json_graph g class_name
   = Ok {| doc_id := Terra class_name;
           doc_schema := "http://json-schema.org/draft-07/schema#/";
           title := None;
           description := "None";
           definitions := Dict.empty;
           doc_type := "object";
           additionalProperties := true;
           properties := initial_properties;
           required := initial_required |})
  /\ (forallb (well_formed_container g) (containers g class_name) = true ->
      exists doc,
        ttl_to_json_graph g class_name = Ok doc
        /\ (value g (Terra class_name) (RDFS "label") = None ->
            title doc = None)
        /\ (value g (Terra class_name) (Prov "definition") = None ->
            description doc = "None")).
Proof.
  split.
  - intros H. unfold ttl_to_json_graph.
    rewrite !(value_without_triples g _ _ H), H. reflexivity.
  - intros Hwf. destruct (ttl_to_json_graph_total g class_name Hwf) as [doc Hdoc].
    exists doc. split; [assumption |].
    apply ttl_to_json_graph_ok in Hdoc as (ps & rq & _ & ->). simpl.
    split; intros ->; reflexivity.
Qed.

Lemma extraction_without_triples_or_label_witness :
  triples empty_graph (Terra "Foo") = []
  /\ forallb (well_formed_container mixed_graph) (containers mixed_graph "Foo") = true
  /\ succeeds (ttl_to_json_graph empty_graph "Foo") = true
  /\ succeeds (ttl_to_json_graph mixed_graph "Foo") = true.
Proof.
  split; [reflexivity |]. split; [reflexivity |]. split.
  - rewrite (proj1 (extraction_without_triples_or_label empty_graph "Foo") eq_refl).
    reflexivity.
  - destruct (proj2 (extraction_without_triples_or_label mixed_graph "Foo") eq_refl)
      as (doc & Hdoc & _).
    rewrite Hdoc. reflexivity.
Defined.

(** C6. A container of the class without an [owl:onProperty] value makes
    extraction raise: no document is produced and the container is not
    skipped.  When the containers met before it are well formed, the error
    is the one raised on computing the compact form of the missing
    property. *)
Theorem missing_onProperty_raises (g : Graph) (class_name : string) (c : Node) :
  In c (containers g class_name) ->
  value g c (OWL "onProperty") = None ->
  (exists e, ttl_to_json_graph g class_name = Raise e)
  /\ (forall pre post,
        containers g class_name = (pre ++ c :: post)%list ->
        forallb (well_formed_container g) pre = true ->
        ttl_to_json_graph g class_name = Raise (AttributeError "NoneType" "n3")).
Proof.
  intros Hin Hnone.
  assert (Hrun : forall pre post,
             containers g class_name = (pre ++ c :: post)%list ->
             ttl_to_json_graph g class_name
             = (st <- visit_containers g (initial_properties, initial_required) pre ;;
                Raise (AttributeError "NoneType" "n3"))).
  { intros pre post Hsplit. unfold ttl_to_json_graph.
    rewrite visit_all_containers, containers_of_triples, Hsplit,
      visit_containers_app.
    destruct (visit_containers g (initial_properties, initial_required) pre)
      as [st | e]; simpl; [| reflexivity].
    now rewrite (visit_container_missing g c st Hnone). }
  split.
  - destruct (in_split _ _ Hin) as (pre & post & Hsplit).
    rewrite (Hrun pre post Hsplit).
    destruct (visit_containers g (initial_properties, initial_required) pre);
      simpl; eauto.
  - intros pre post Hsplit Hwf. rewrite (Hrun pre post Hsplit).
    destruct (visit_containers_total g pre (initial_properties, initial_required) Hwf)
      as [st ->].
    reflexivity.
Qed.

Lemma missing_onProperty_raises_witness :
  In (BNode "b0") (containers broken_graph "Foo")
  /\ value broken_graph (BNode "b0") (OWL "onProperty") = None
  /\ ttl_to_json_graph broken_graph "Foo" = Raise (AttributeError "NoneType" "n3").
Proof.
  assert (Hin : In (BNode "b0") (containers broken_graph "Foo")) by (now left).
  split; [exact Hin |]. split; [reflexivity |].
  exact (proj2 (missing_onProperty_raises broken_graph "Foo" (BNode "b0")
                  Hin eq_refl) [] [] eq_refl eq_refl).
Defined.

(** ** The claims about the driver *)

(** The comprehension of [rdf_to_json] raises what the first failing class
    raises. *)
Lemma rdf_to_json_from_raises (fs : FileSystem) (file_path : string)
  (pre post : list string) (c : string) (e : Exception) (acc : Dict.t Document) :
  Forall (fun c' => succeeds (ttl_to_json fs file_path c') = true) pre ->
  ttl_to_json fs file_path c = Raise e ->
  rdf_to_json_from acc fs file_path (pre ++ c :: post) = Raise e.
Proof.
  intros Hpre Hc. revert acc.
  induction Hpre as [| c' pre Hc' Hpre IH]; intros acc; simpl.
  - now rewrite Hc.
  - destruct (ttl_to_json fs file_path c') as [doc | e']; [| discriminate].
    simpl. apply IH.
Qed.

(** A list with a failing class splits at its first failing class. *)
Lemma first_failure (fs : FileSystem) (file_path : string) (cl : list string) :
  Exists (fun c => succeeds (ttl_to_json fs file_path c) = false) cl ->
  exists pre c post e,
    cl = (pre ++ c :: post)%list
    /\ Forall (fun c' => succeeds (ttl_to_json fs file_path c') = true) pre
    /\ ttl_to_json fs file_path c = Raise e.
Proof.
  induction cl as [| c cl IH]; intros Hex; [inversion Hex |].
  destruct (ttl_to_json fs file_path c) as [doc | e] eqn:E.
  - inversion Hex as [? ? Hc | ? ? Hcl]; subst.
    + rewrite E in Hc. discriminate.
    + destruct (IH Hcl) as (pre & c0 & post & e & -> & Hpre & Hc0).
      exists (c :: pre), c0, post, e. repeat split; [| assumption].
      constructor; [now rewrite E | assumption].
  - exists [], c, cl, e. repeat split; [constructor | assumption].
Qed.

(** C5, as stated, fails: no run in which the extraction of some class
    fails leaves any file written or changed. *)
Lemma partial_output_counterexample :
  ~ (exists w file_path class_list,
        Exists (fun c => succeeds (ttl_to_json (files w) file_path c) = false)
               class_list
        /\ files (fst (main (file_path, class_list) w)) <> files w).
Proof.
  intros (w & file_path & class_list & Hex & Hfiles).
  apply first_failure in Hex as (pre & c & post & e & -> & Hpre & Hc).
  apply Hfiles. unfold main, rdf_to_json.
  now rewrite (rdf_to_json_from_raises _ _ pre post c e Dict.empty Hpre Hc).
Qed.

(** C5, amended.  In a multi-class invocation, when the extraction of some
    class fails, the run aborts with the error of the first failing class
    before any output file is written: the files and the pending input are
    as they were. *)
Theorem extraction_failure_writes_nothing (w : World) (file_path : string)
  (pre post : list string) (c : string) (e : Exception) :
  Forall (fun c' => succeeds (ttl_to_json (files w) file_path c') = true) pre ->
  ttl_to_json (files w) file_path c = Raise e ->
  main (file_path, (pre ++ c :: post)%list) w = (w, Raise e).
Proof.
  intros Hpre Hc. unfold main, rdf_to_json.
  now rewrite (rdf_to_json_from_raises _ _ pre post c e Dict.empty Hpre Hc).
Qed.

Lemma extraction_failure_writes_nothing_witness :
  let w := {| files := [("model.ttl", TurtleText broken_graph)]; stdin := [] |} in
  Forall (fun c' => succeeds (ttl_to_json (files w) "model.ttl" c') = true) ["Bar"]
  /\ ttl_to_json (files w) "model.ttl" "Foo" = Raise (AttributeError "NoneType" "n3")
  /\ main ("model.ttl", ["Bar"; "Foo"; "Baz"]) w
     = (w, Raise (AttributeError "NoneType" "n3")).
Proof.
  intros w.
  assert (Hpre : Forall (fun c' => succeeds (ttl_to_json (files w) "model.ttl" c') = true)
                        ["Bar"]).
  { constructor; [reflexivity | constructor]. }
  split; [exact Hpre |]. split; [reflexivity |].
  exact (extraction_failure_writes_nothing w "model.ttl" ["Bar"] ["Baz"] "Foo"
           (AttributeError "NoneType" "n3") Hpre eq_refl).
Defined.

(** C8, as stated, fails on its second half: for the fixture the file
    [Foo.json] holds the full range IRI under [$ref], not the compact
    [xsd:string]. *)
Lemma foo_ref_counterexample :
  ~ (exists j,
        Dict.get "Foo.json" (files (fst (main ("model.ttl", ["Foo"]) foo_world)))
        = Some (JsonText j)
        /\ lookup ["required"] j
           = Some (JArray [JString "id"; JString "describedBy"; JString "ex:bar"])
        /\ lookup ["properties"; "ex:bar"; "$ref"] j = Some (JString "xsd:string")).
Proof.
  intros (j & Hget & _ & Href).
  vm_compute in Hget. injection Hget as <-.
  vm_compute in Href. discriminate.
Qed.

(** C8, amended.  For a graph defining class [Foo] with one container whose
    property compacts to [ex:bar], with cardinality 1 and range
    [xsd:string], the export of the class list [Foo] writes [Foo.json] with
    [required] exactly [id], [describedBy], [ex:bar], and
    [properties["ex:bar"]["$ref"]] is the range IRI as it stands in the
    graph, [http://www.w3.org/2001/XMLSchema#string]. *)
Theorem foo_export (w : World) (file_path : string) (g : Graph)
  (c : Node) (bar : string) (l : LiteralData) :
  load_graph (files w) file_path = Ok g ->
  containers g "Foo" = [c] ->
  value g c (OWL "onProperty") = Some (URIRef bar) ->
  is_valid_uri bar = true ->
  normalizeUri (namespace_manager g) bar = "ex:bar" ->
  value g c (OWL "cardinality") = Some (Literal l) ->
  lit_value l = PyInt 1 ->
  value g (URIRef bar) (RDFS "range") = Some (URIRef (XSD "string")) ->
  Dict.mem "Foo.json" (files w) = false ->
  exists w' j,
    main (file_path, ["Foo"]) w = (w', Ok tt)
    /\ Dict.get "Foo.json" (files w') = Some (JsonText j)
    /\ lookup ["required"] j
       = Some (JArray [JString "id"; JString "describedBy"; JString "ex:bar"])
    /\ lookup ["properties"; "ex:bar"; "$ref"] j
       = Some (JString "http://www.w3.org/2001/XMLSchema#string").
Proof.
  intros Hload Hcs Hprop Hvalid Hkey Hcard Hone Hrange Hmem.
  assert (Hdoc : exists doc,
             ttl_to_json_graph g "Foo" = Ok doc
             /\ required doc = ["id"; "describedBy"; "ex:bar"]
             /\ properties doc
                = Dict.set "ex:bar"
                    (RefEntry "ex:bar" (Some (URIRef (XSD "string"))))
                    initial_properties).
  { unfold ttl_to_json_graph.
    rewrite visit_all_containers, containers_of_triples, Hcs. simpl.
    rewrite Hprop, Hcard. simpl. rewrite Hvalid, Hkey, Hrange. simpl.
    rewrite Hone. simpl. eexists. split; [reflexivity |]. split; reflexivity. }
  destruct Hdoc as (doc & Hdoc & Hreq & Hprops).
  unfold main, rdf_to_json. simpl. unfold ttl_to_json. rewrite Hload. simpl.
  rewrite Hdoc. simpl.
  unfold io_bind, path_exists. rewrite Hmem.
  unfold write_to_json, io_bind, store_file. simpl.
  do 2 eexists. split; [reflexivity |]. simpl.
  split; [apply DictFacts.get_set_same |].
  unfold json_of_document. rewrite Hreq, Hprops. split; reflexivity.
Qed.

Lemma foo_export_witness :
  exists w' j,
    main ("model.ttl", ["Foo"]) foo_world = (w', Ok tt)
    /\ Dict.get "Foo.json" (files w') = Some (JsonText j)
    /\ lookup ["required"] j
       = Some (JArray [JString "id"; JString "describedBy"; JString "ex:bar"])
    /\ lookup ["properties"; "ex:bar"; "$ref"] j
       = Some (JString "http://www.w3.org/2001/XMLSchema#string").
Proof.
  exact (foo_export foo_world "model.ttl" foo_graph (BNode "b0")
           "http://example.org/bar"
           {| lexical := "1"; datatype := Some (XSD "integer");
              language := None; lit_value := PyInt 1 |}
           eq_refl eq_refl eq_refl eq_refl eq_refl eq_refl eq_refl eq_refl eq_refl).
Defined.


(** ** Further facts about dictionaries and strings *)

Lemma dict_set_set {V : Type} (k : string) (v1 v2 : V) (d : Dict.t V) :
  Dict.set k v2 (Dict.set k v1 d) = Dict.set k v2 d.
Proof.
  induction d as [| [k' v'] d IH]; simpl.
  - now rewrite String.eqb_refl.
  - destruct (String.eqb k' k) eqn:E; simpl; rewrite E; [reflexivity |].
    now rewrite IH.
Qed.


Lemma dict_get_None {V : Type} (k : string) (d : Dict.t V) :
  Dict.get k d = None <-> ~ In k (Dict.keys d).
Proof.
  induction d as [| [k' v'] d IH]; simpl.
  - intuition.
  - destruct (String.eqb_spec k' k) as [-> | Hne].
    + split; [discriminate | intros H; exfalso; apply H; now left].
    + rewrite IH. intuition.
Qed.

Lemma dict_mem_false {V : Type} (k : string) (d : Dict.t V) :
  Dict.mem k d = false <-> ~ In k (Dict.keys d).
Proof.
  unfold Dict.mem. rewrite <- dict_get_None.
  destruct (Dict.get k d); split; intros H; congruence.
Qed.




(** ** Facts about [rdf_to_json] *)

Lemma rdf_to_json_from_ok (fs : FileSystem) (file_path : string)
  (class_list : list string) (acc d : Dict.t Document) :
  rdf_to_json_from acc fs file_path class_list = Ok d ->
  Dict.keys d = fold_left add_key class_list (Dict.keys acc)
  /\ (forall c, In c class_list ->
        exists doc, ttl_to_json fs file_path c = Ok doc /\ Dict.get c d = Some doc)
  /\ (forall k, ~ In k class_list -> Dict.get k d = Dict.get k acc).
Proof.
  revert acc. induction class_list as [| c rest IH]; intros acc; simpl.
  - intros H. inv_ok. repeat split. intros c [].
  - intros H. apply bind_ok in H as (doc & Hdoc & Hrest).
    apply IH in Hrest as (Hkeys & Hin & Hout).
    rewrite Hkeys, DictFacts.keys_set. repeat split.
    + intros c' Hc'. destruct (in_dec string_dec c' rest) as [Hr | Hr].
      * now apply Hin.
      * destruct Hc' as [<- | Hc']; [| contradiction].
        exists doc. split; [assumption |].
        rewrite (Hout c Hr). apply DictFacts.get_set_same.
    + intros k Hk. rewrite Hout by (intros Hr; apply Hk; now right).
      apply DictFacts.get_set_other. intros ->. apply Hk. now left.
Qed.

Lemma rdf_to_json_from_succeeds (fs : FileSystem) (file_path : string)
  (class_list : list string) (acc : Dict.t Document) :
  succeeds (rdf_to_json_from acc fs file_path class_list)
  = forallb (fun c => succeeds (ttl_to_json fs file_path c)) class_list.
Proof.
  revert acc. induction class_list as [| c rest IH]; intros acc; simpl.
  - reflexivity.
  - destruct (ttl_to_json fs file_path c) as [doc | e]; simpl; [apply IH | reflexivity].
Qed.

(** ** Facts about the writing loop of [main] *)


Lemma write_files_declined (d : Dict.t Document) (key : string) (rest : list string)
  (line : string) (lines : list string) (w : World) :
  Dict.mem (key ++ ".json") (files w) = true ->
  stdin w = line :: lines ->
  line <> "y" ->
  write_files d (key :: rest) w
  = write_files d rest {| files := files w; stdin := lines |}.
Proof.
  intros Hmem Hin Hline. cbn [write_files]. unfold io_bind at 1. unfold path_exists.
  rewrite Hmem. unfold io_bind at 1. unfold io_bind at 1. unfold input.
  rewrite Hin. apply String.eqb_neq in Hline. rewrite Hline. reflexivity.
Qed.

Lemma write_files_accepted (d : Dict.t Document) (key : string) (rest : list string)
  (doc : Document) (lines : list string) (w : World) :
  Dict.mem (key ++ ".json") (files w) = true ->
  stdin w = "y" :: lines ->
  Dict.get key d = Some doc ->
  write_files d (key :: rest) w
  = write_files d rest
      {| files := Dict.set (key ++ ".json") (JsonText (json_of_document doc)) (files w);
         stdin := lines |}.
Proof.
  intros Hmem Hin Hget. cbn [write_files]. unfold io_bind at 1. unfold path_exists.
  rewrite Hmem. unfold io_bind at 1. unfold io_bind at 1. unfold input.
  rewrite Hin. cbn [String.eqb Ascii.eqb Bool.eqb]. cbv iota.
  unfold write_to_json, io_bind, store_file.
  cbn [files stdin]. rewrite Hget. cbn [files stdin]. now rewrite dict_set_set.
Qed.



(** ** Properties of the driver *)

(** When [rdf_to_json] returns, its dictionary has one key per distinct
    class name, in order of first mention, and under each class name the
    document extracted for that class. *)
Theorem rdf_to_json_result (fs : FileSystem) (file_path : string)
  (class_list : list string) (d : Dict.t Document) :
  rdf_to_json fs file_path class_list = Ok d ->
  NoDup (Dict.keys d)
  /\ Dict.keys d = fold_left add_key class_list []
  /\ (forall k, In k (Dict.keys d) <-> In k class_list)
  /\ (forall c, In c class_list ->
        exists doc, ttl_to_json fs file_path c = Ok doc /\ Dict.get c d = Some doc).
Proof.
  intros H. apply rdf_to_json_from_ok in H as (Hkeys & Hin & _).
  simpl in Hkeys. rewrite Hkeys. repeat split.
  - apply DictFacts.NoDup_fold_add_key. constructor.
  - rewrite DictFacts.In_fold_add_key. intros [[] | H]. assumption.
  - rewrite DictFacts.In_fold_add_key. auto.
  - assumption.
Qed.

Lemma rdf_to_json_result_witness :
  exists d,
    rdf_to_json (files foo_world) "model.ttl" ["Foo"; "Bar"; "Foo"] = Ok d
    /\ Dict.keys d = ["Foo"; "Bar"].
Proof.
  eexists. split; [vm_compute; reflexivity |].
  match goal with
  | |- Dict.keys ?d = _ =>
      destruct (rdf_to_json_result (files foo_world) "model.ttl"
                  ["Foo"; "Bar"; "Foo"] d eq_refl) as (_ & Hkeys & _)
  end.
  rewrite Hkeys. reflexivity.
Defined.

(** [rdf_to_json] returns exactly when the extraction of every listed class
    succeeds. *)
Theorem rdf_to_json_succeeds_iff (fs : FileSystem) (file_path : string)
  (class_list : list string) :
  succeeds (rdf_to_json fs file_path class_list)
  = forallb (fun c => succeeds (ttl_to_json fs file_path c)) class_list.
Proof.
  apply rdf_to_json_from_succeeds.
Qed.



(** A single class whose output file exists: any answer other than [y] to
    the prompt leaves every file as it was; the answer is consumed and
    [main] ends normally. *)
Theorem main_overwrite_declined (w : World) (file_path class_name line : string)
  (lines : list string) (doc : Document) :
  ttl_to_json (files w) file_path class_name = Ok doc ->
  Dict.mem (class_name ++ ".json") (files w) = true ->
  stdin w = line :: lines ->
  line <> "y" ->
  main (file_path, [class_name]) w = ({| files := files w; stdin := lines |}, Ok tt).
Proof.
  intros Hdoc Hmem Hin Hline. unfold main, rdf_to_json. cbn [rdf_to_json_from].
  rewrite Hdoc. cbn [bind Dict.set Dict.empty Dict.keys map fst].
  now rewrite (write_files_declined _ _ _ line lines w Hmem Hin Hline).
Qed.

Lemma main_overwrite_declined_witness :
  let w := {| files := [("model.ttl", TurtleText foo_graph); ("Foo.json", OtherText)];
              stdin := ["Y"; "y"] |} in
  main ("model.ttl", ["Foo"]) w = ({| files := files w; stdin := ["y"] |}, Ok tt).
Proof.
  intros w.
  assert (Hdoc : exists doc, ttl_to_json (files w) "model.ttl" "Foo" = Ok doc).
  { eexists. vm_compute. reflexivity. }
  destruct Hdoc as [doc Hdoc].
  apply (main_overwrite_declined w "model.ttl" "Foo" "Y" ["y"] doc Hdoc);
    [reflexivity | reflexivity | discriminate].
Defined.

(** A single class whose output file exists: the answer [y] replaces that
    file's content by the class's document and touches no other file. *)
Theorem main_overwrite_accepted (w : World) (file_path class_name : string)
  (lines : list string) (doc : Document) :
  ttl_to_json (files w) file_path class_name = Ok doc ->
  Dict.mem (class_name ++ ".json") (files w) = true ->
  stdin w = "y" :: lines ->
  exists w',
    main (file_path, [class_name]) w = (w', Ok tt)
    /\ stdin w' = lines
    /\ Dict.keys (files w') = Dict.keys (files w)
    /\ Dict.get (class_name ++ ".json") (files w')
       = Some (JsonText (json_of_document doc))
    /\ (forall name, name <> class_name ++ ".json" ->
          Dict.get name (files w') = Dict.get name (files w)).
Proof.
  intros Hdoc Hmem Hin. unfold main, rdf_to_json. cbn [rdf_to_json_from].
  rewrite Hdoc. cbn [bind Dict.set Dict.empty Dict.keys map fst].
  rewrite (write_files_accepted _ _ _ doc lines w Hmem Hin)
    by (simpl; now rewrite String.eqb_refl).
  eexists. split; [reflexivity |]. cbn [files stdin]. repeat split.
  - rewrite DictFacts.keys_set. unfold add_key.
    assert (Hk : In (class_name ++ ".json") (Dict.keys (files w))).
    { destruct (in_dec string_dec (class_name ++ ".json") (Dict.keys (files w)))
        as [Hk | Hk]; [assumption |].
      apply dict_mem_false in Hk. congruence. }
    apply DictFacts.existsb_eqb_In in Hk. now rewrite Hk.
  - apply DictFacts.get_set_same.
  - intros name Hname. apply DictFacts.get_set_other. congruence.
Qed.

Lemma main_overwrite_accepted_witness :
  let w := {| files := [("model.ttl", TurtleText foo_graph); ("Foo.json", OtherText)];
              stdin := ["y"] |} in
  exists w', main ("model.ttl", ["Foo"]) w = (w', Ok tt)
             /\ stdin w' = []
             /\ Dict.get "model.ttl" (files w') = Some (TurtleText foo_graph).
Proof.
  intros w.
  assert (Hdoc : exists doc, ttl_to_json (files w) "model.ttl" "Foo" = Ok doc).
  { eexists. vm_compute. reflexivity. }
  destruct Hdoc as [doc Hdoc].
  destruct (main_overwrite_accepted w "model.ttl" "Foo" [] doc Hdoc eq_refl eq_refl)
    as (w' & Hmain & Hstdin & _ & _ & Hother).
  exists w'. split; [exact Hmain |]. split; [exact Hstdin |].
  rewrite Hother by discriminate. reflexivity.
Defined.



(** ** Further properties of [ttl_to_json] *)

(** Containers with another key leave the entry of a key alone. *)
Lemma visit_containers_get_other (g : Graph) (k : string) (cs : list Node)
  (ps ps' : Dict.t PropertyEntry) (rq rq' : list string) :
  visit_containers g (ps, rq) cs = Ok (ps', rq') ->
  (forall c, In c cs -> container_key g c <> Ok k) ->
  Dict.get k ps' = Dict.get k ps.
Proof.
  revert ps rq. induction cs as [| c cs IH]; intros ps rq; simpl.
  - intros H _. now inv_ok.
  - intros H Hother. apply bind_ok in H as [[ps1 rq1] [H1 H2]].
    apply visit_container_ok in H1 as (k' & Hk' & _ & -> & _).
    rewrite (IH _ _ H2) by (intros c' Hc'; apply Hother; now right).
    apply DictFacts.get_set_other. intros ->. apply (Hother c); [now left | assumption].
Qed.

(** The entry of a key is the one written for the last container with that
    key. *)
Lemma properties_entry_of_last (g : Graph) (class_name : string) (doc : Document)
  (pre post : list Node) (c : Node) (k : string) :
  ttl_to_json_graph g class_name = Ok doc ->
  containers g class_name = (pre ++ c :: post)%list ->
  container_key g c = Ok k ->
  (forall c', In c' post -> container_key g c' <> Ok k) ->
  Dict.get k (properties doc) = Some (RefEntry k (container_range g c)).
Proof.
  intros Hdoc Hsplit Hk Hpost.
  apply ttl_to_json_graph_ok in Hdoc as (ps & rq & Hloop & ->). simpl.
  rewrite Hsplit, visit_containers_app in Hloop.
  apply bind_ok in Hloop as [[ps1 rq1] [_ Hloop]]. simpl in Hloop.
  apply bind_ok in Hloop as [[ps2 rq2] [Hc Hloop]].
  apply visit_container_ok in Hc as (k' & Hk' & _ & -> & _).
  rewrite Hk in Hk'. inv_ok.
  rewrite (visit_containers_get_other g k' post _ _ _ _ Hloop Hpost).
  apply DictFacts.get_set_same.
Qed.

Lemma member_json_of_entries (k : string) (d : Dict.t PropertyEntry) :
  member k (json_of_entries d) = option_map json_of_entry (Dict.get k d).
Proof.
  unfold json_of_entries. simpl.
  induction d as [| [k' e] d IH]; simpl; [reflexivity |].
  destruct (String.eqb k' k); [reflexivity | assumption].
Qed.



(** Last write wins: when several containers compact to one key, the entry
    under that key is the one of the last such container; its description
    is the key itself and its [$ref] that container's range. *)
Theorem last_container_wins (g : Graph) (class_name : string) (doc : Document)
  (pre post : list Node) (c : Node) (k : string) :
  ttl_to_json_graph g class_name = Ok doc ->
  containers g class_name = (pre ++ c :: post)%list ->
  container_key g c = Ok k ->
  (forall c', In c' post -> container_key g c' <> Ok k) ->
  Dict.get k (properties doc) = Some (RefEntry k (container_range g c))
  /\ lookup ["properties"; k; "description"] (json_of_document doc) = Some (JString k)
  /\ lookup ["properties"; k; "$ref"] (json_of_document doc)
     = Some (json_of_node (container_range g c)).
Proof.
  intros Hdoc Hsplit Hk Hpost.
  pose proof (properties_entry_of_last g class_name doc pre post c k
                Hdoc Hsplit Hk Hpost) as Hget.
  split; [assumption |].
  unfold lookup, json_of_document.
  change (member "properties" (JObject ?ms)) with (Dict.get "properties" ms).
  cbn [Dict.get String.eqb Ascii.eqb Bool.eqb]. cbv iota.
  rewrite member_json_of_entries, Hget. split; reflexivity.
Qed.

Lemma last_container_wins_witness :
  exists doc,
    ttl_to_json_graph twice_graph "Foo" = Ok doc
    /\ Dict.get "ex:bar" (properties doc)
       = Some (RefEntry "ex:bar" (container_range twice_graph (BNode "b1"))).
Proof.
  eexists. split; [vm_compute; reflexivity |].
  match goal with
  | |- context [properties ?d] =>
      apply (last_container_wins twice_graph "Foo" d [BNode "b0"] [] (BNode "b1")
               "ex:bar" eq_refl eq_refl eq_refl)
  end.
  intros c' [].
Defined.

(** A key that no container of the class compacts to keeps what the
    initial dictionary holds for it: the two fixed descriptors stay as they
    are and no other key appears. *)
Theorem other_keys_untouched (g : Graph) (class_name : string) (doc : Document)
  (k : string) :
  ttl_to_json_graph g class_name = Ok doc ->
  (forall c, In c (containers g class_name) -> container_key g c <> Ok k) ->
  Dict.get k (properties doc) = Dict.get k initial_properties.
Proof.
  intros Hdoc Hother.
  apply ttl_to_json_graph_ok in Hdoc as (ps & rq & Hloop & ->). simpl.
  exact (visit_containers_get_other g k _ _ _ _ _ Hloop Hother).
Qed.

Lemma other_keys_untouched_witness :
  exists doc,
    ttl_to_json_graph foo_graph "Foo" = Ok doc
    /\ Dict.get "id" (properties doc)
       = Some (FixedEntry "UUID for this entity." "string").
Proof.
  eexists. split; [vm_compute; reflexivity |].
  match goal with
  | |- context [properties ?d] =>
      rewrite (other_keys_untouched foo_graph "Foo" d "id" eq_refl)
  end; [reflexivity |].
  intros c [<- | []]. vm_compute. discriminate.
Defined.

(** A property without [rdfs:range] still gets its entry; the [$ref] of the
    entry is null. *)
Theorem missing_range_gives_null_ref (g : Graph) (class_name : string)
  (doc : Document) (pre post : list Node) (c : Node) (k : string) :
  ttl_to_json_graph g class_name = Ok doc ->
  containers g class_name = (pre ++ c :: post)%list ->
  container_key g c = Ok k ->
  (forall c', In c' post -> container_key g c' <> Ok k) ->
  container_range g c = None ->
  Dict.get k (properties doc) = Some (RefEntry k None)
  /\ lookup ["properties"; k; "$ref"] (json_of_document doc) = Some JNull.
Proof.
  intros Hdoc Hsplit Hk Hpost Hrange.
  pose proof (properties_entry_of_last g class_name doc pre post c k
                Hdoc Hsplit Hk Hpost) as Hget.
  rewrite Hrange in Hget. split; [assumption |].
  unfold lookup, json_of_document.
  change (member "properties" (JObject ?ms)) with (Dict.get "properties" ms).
  cbn [Dict.get String.eqb Ascii.eqb Bool.eqb]. cbv iota.
  rewrite member_json_of_entries, Hget. reflexivity.
Qed.

Lemma missing_range_gives_null_ref_witness :
  exists doc,
    ttl_to_json_graph mixed_graph "Foo" = Ok doc
    /\ lookup ["properties"; "ex:two"; "$ref"] (json_of_document doc) = Some JNull.
Proof.
  eexists. split; [vm_compute; reflexivity |].
  match goal with
  | |- context [json_of_document ?d] =>
      apply (missing_range_gives_null_ref mixed_graph "Foo" d
               [BNode "b0"; BNode "b1"] [BNode "b3"] (BNode "b2") "ex:two"
               eq_refl eq_refl eq_refl)
  end; [| reflexivity].
  intros c' [<- | []]. vm_compute. discriminate.
Defined.

Lemma visit_container_bad_cardinality (g : Graph) (c n : Node) (k : string)
  (e : Exception) (st : Collected) :
  container_key g c = Ok k ->
  value g c (OWL "cardinality") = Some n ->
  node_bool n = true ->
  get_value n = Raise e ->
  visit_container g st c = Raise e.
Proof.
  intros Hk Hn Hbool He. destruct st as [ps rq].
  unfold visit_container. unfold container_key in Hk.
  destruct (value g c (OWL "onProperty")) as [prop |]; [| discriminate].
  rewrite Hk, Hn. simpl. rewrite Hbool, He. reflexivity.
Qed.

(** A container whose [owl:cardinality] is an IRI or a blank node (anything
    true that is not a literal) makes extraction raise; when the containers
    before it are well formed and its property compacts, the error is the
    [AttributeError] of reading [.value] on that term. *)
Theorem non_literal_cardinality_raises (g : Graph) (class_name : string)
  (c n : Node) (e : Exception) :
  In c (containers g class_name) ->
  value g c (OWL "cardinality") = Some n ->
  node_bool n = true ->
  get_value n = Raise e ->
  (exists e', ttl_to_json_graph g class_name = Raise e')
  /\ (forall pre post k,
        containers g class_name = (pre ++ c :: post)%list ->
        forallb (well_formed_container g) pre = true ->
        container_key g c = Ok k ->
        ttl_to_json_graph g class_name = Raise e).
Proof.
  intros Hin Hn Hbool He. split.
  - destruct (ttl_to_json_graph g class_name) as [doc | e'] eqn:Hdoc; [| eauto].
    apply ttl_to_json_graph_ok in Hdoc as (ps & rq & Hloop & _).
    apply visit_containers_ok in Hloop as (Hwf & _).
    rewrite forallb_forall in Hwf. specialize (Hwf c Hin).
    unfold well_formed_container in Hwf. apply andb_true_iff in Hwf as [_ Hcard].
    rewrite Hn in Hcard. simpl in Hcard. rewrite Hbool, He in Hcard. discriminate.
  - intros pre post k Hsplit Hwf Hk. unfold ttl_to_json_graph.
    rewrite visit_all_containers, containers_of_triples, Hsplit, visit_containers_app.
    destruct (visit_containers_total g pre (initial_properties, initial_required) Hwf)
      as [st ->].
    simpl. now rewrite (visit_container_bad_cardinality g c n k e st Hk Hn Hbool He).
Qed.

Lemma non_literal_cardinality_raises_witness :
  let g := {| store :=
                [ mkTriple (Terra "Foo") (OWL "equivalentClass") (BNode "b0");
                  mkTriple (BNode "b0") (OWL "onProperty") ex_bar;
                  mkTriple (BNode "b0") (OWL "cardinality") ex_bar ];
              namespace_manager := example_manager |} in
  ttl_to_json_graph g "Foo" = Raise (AttributeError "URIRef" "value").
Proof.
  intros g.
  assert (Hin : In (BNode "b0") (containers g "Foo")) by (now left).
  exact (proj2 (non_literal_cardinality_raises g "Foo" (BNode "b0") ex_bar
                  (AttributeError "URIRef" "value") Hin eq_refl eq_refl eq_refl)
               [] [] "ex:bar" eq_refl eq_refl eq_refl).
Defined.

(** The test [cardinality.value == 1] is Python equality: a container whose
    cardinality is the boolean literal true is required like one of
    cardinality 1. *)
Theorem boolean_true_cardinality_is_required (g : Graph) (class_name : string)
  (doc : Document) (c : Node) (l : LiteralData) :
  ttl_to_json_graph g class_name = Ok doc ->
  In c (containers g class_name) ->
  value g c (OWL "cardinality") = Some (Literal l) ->
  lit_value l = PyBool true ->
  exists k, container_key g c = Ok k /\ In k (skipn 2 (required doc)).
Proof.
  intros Hdoc Hin Hcard Htrue.
  apply ttl_to_json_graph_ok in Hdoc as (ps & rq & Hloop & ->).
  apply visit_containers_ok in Hloop as (Hwf & _ & -> & _). simpl.
  destruct (container_keys_In g _ c Hwf Hin) as (k & Hk & _).
  exists k. split; [assumption |].
  apply In_container_keys. exists c. split; [| assumption].
  apply filter_In. split; [assumption |].
  unfold cardinality_is_one. now rewrite Hcard, Htrue.
Qed.

Lemma boolean_true_cardinality_is_required_witness :
  let yes := Literal {| lexical := "true"; datatype := Some (XSD "boolean");
                        language := None; lit_value := PyBool true |} in
  let g := {| store :=
                [ mkTriple (Terra "Foo") (OWL "equivalentClass") (BNode "b0");
                  mkTriple (BNode "b0") (OWL "onProperty") ex_bar;
                  mkTriple (BNode "b0") (OWL "cardinality") yes ];
              namespace_manager := example_manager |} in
  exists doc, ttl_to_json_graph g "Foo" = Ok doc
              /\ required doc = ["id"; "describedBy"; "ex:bar"].
Proof.
  intros yes g. eexists. split; [vm_compute; reflexivity |].
  match goal with
  | |- required ?d = _ =>
      destruct (boolean_true_cardinality_is_required g "Foo" d (BNode "b0")
                  {| lexical := "true"; datatype := Some (XSD "boolean");
                     language := None; lit_value := PyBool true |}
                  eq_refl (or_introl eq_refl) eq_refl eq_refl) as (k & _ & _)
  end.
  reflexivity.
Defined.

(** ** Properties of [get_arguments] and of the script *)






(** The loop over the class file keeps the stripped text of the lines that
    are not blank, in order, and leaves in [class_count] the index of the
    last line. *)
Lemma read_class_file_spec (lines : list string) (index : nat)
  (class_list : list string) (class_count : nat) :
  read_class_file index lines class_list class_count
  = ((class_list
      ++ filter (fun s => negb (String.eqb s EmptyString)) (map strip lines))%list,
     match lines with
     | [] => class_count
     | _ :: _ => (index + length lines - 1)%nat
     end).
Proof.
  revert index class_list class_count.
  induction lines as [| line rest IH]; intros index class_list class_count; simpl.
  - now rewrite app_nil_r.
  - destruct (String.eqb (strip line) EmptyString); simpl; rewrite IH.
    + f_equal. destruct rest; simpl; lia.
    + rewrite <- app_assoc. f_equal. destruct rest; simpl; lia.
Qed.


Lemma filter_none_kept {A : Type} (f : A -> bool) (l : list A) :
  Forall (fun x => f x = false) l -> filter f l = [].
Proof.
  induction 1 as [| x l Hx Hl IH]; simpl; [reflexivity |]. now rewrite Hx.
Qed.

(** What [get_arguments] does when it reads the class file. *)
Lemma get_arguments_class_path (args : Args.t) (text_files : Dict.t (list string))
  (path : string) (lines : list string) :
  list_truthy (Args.class_list args) = false ->
  Args.class_path args = Some path ->
  path <> EmptyString ->
  Dict.get path text_files = Some lines ->
  get_arguments args text_files
  = ([LogParsed (length lines - 1) path;
      LogClassList (filter (fun s => negb (String.eqb s EmptyString)) (map strip lines))],
     Returned
       (Some (Args.file_path args,
              filter (fun s => negb (String.eqb s EmptyString)) (map strip lines)))).
Proof.
  intros Hlist Hpath Hne Hget. unfold get_arguments.
  rewrite Hpath, Hlist. simpl.
  apply String.eqb_neq in Hne. rewrite Hne. simpl. rewrite Hget.
  rewrite read_class_file_spec. simpl.
  destruct (Args.class_list args); destruct lines; simpl; rewrite ?Nat.sub_0_r;
    reflexivity.
Qed.

(** Neither way of naming classes, or both at once: [get_arguments] logs one
    error and leaves through [sys.exit(1)]; the script ends with status 1
    and has touched no file. *)
Theorem usage_errors_exit (args : Args.t) (text_files : Dict.t (list string))
  (w : World) :
  (Args.class_list args = None /\ Args.class_path args = None)
  \/ (list_truthy (Args.class_list args) = true
      /\ str_truthy (Args.class_path args) = true) ->
  exists message,
    get_arguments args text_files = ([LogError message], SystemExit 1)
    /\ script args text_files w = ([LogError message], w, Exit 1).
Proof.
  intros [[Hlist Hpath] | [Hlist Hpath]]; unfold script, get_arguments.
  - rewrite Hlist, Hpath. eexists. split; reflexivity.
  - rewrite Hlist, Hpath. simpl.
    destruct (Args.class_list args); [| discriminate].
    eexists. split; reflexivity.
Qed.

Lemma usage_errors_exit_witness :
  exists message,
    script (Args.mk "model.ttl" (Some ["Foo"]) (Some "classes.txt")) [] foo_world
    = ([LogError message], foo_world, Exit 1).
Proof.
  destruct (usage_errors_exit (Args.mk "model.ttl" (Some ["Foo"]) (Some "classes.txt"))
              [] foo_world (or_intror (conj eq_refl eq_refl)))
    as (message & _ & H).
  exists message. exact H.
Defined.





(** A class list is returned as given whenever the class path is absent or
    the empty string; in the second case both options were supplied and no
    usage error is reported. *)
Theorem class_list_returned (args : Args.t) (text_files : Dict.t (list string))
  (class_list : list string) :
  Args.class_list args = Some class_list ->
  class_list <> [] ->
  str_truthy (Args.class_path args) = false ->
  get_arguments args text_files
  = ([], Returned (Some (Args.file_path args, class_list))).
Proof.
  intros Hlist Hne Hpath. unfold get_arguments. rewrite Hlist, Hpath.
  destruct class_list as [| c rest]; [contradiction |]. simpl.
  destruct (Args.class_path args); reflexivity.
Qed.

Lemma class_list_returned_witness :
  get_arguments (Args.mk "model.ttl" (Some ["Foo"]) (Some EmptyString)) []
  = ([], Returned (Some ("model.ttl", ["Foo"]))).
Proof.
  apply (class_list_returned (Args.mk "model.ttl" (Some ["Foo"]) (Some EmptyString))
           [] ["Foo"] eq_refl); [discriminate | reflexivity].
Defined.

(** An empty class path without a class list is not caught as a usage
    error: [get_arguments] logs an error and returns [None], and the script
    then stops on unpacking it, having touched no file. *)
Theorem empty_class_path_falls_through (args : Args.t)
  (text_files : Dict.t (list string)) (w : World) :
  list_truthy (Args.class_list args) = false ->
  Args.class_path args = Some EmptyString ->
  get_arguments args text_files
  = ([LogError "Error parsing arguments, please try again..."], Returned None)
  /\ script args text_files w
     = ([LogError "Error parsing arguments, please try again..."], w,
        UnpackNoneTypeError).
Proof.
  intros Hlist Hpath.
  assert (H : get_arguments args text_files
              = ([LogError "Error parsing arguments, please try again..."],
                 Returned None)).
  { unfold get_arguments. rewrite Hpath, Hlist. simpl.
    destruct (Args.class_list args); reflexivity. }
  split; [assumption |]. unfold script. now rewrite H.
Qed.

Lemma empty_class_path_falls_through_witness :
  script (Args.mk "model.ttl" None (Some EmptyString)) [] foo_world
  = ([LogError "Error parsing arguments, please try again..."], foo_world,
     UnpackNoneTypeError).
Proof.
  exact (proj2 (empty_class_path_falls_through
                  (Args.mk "model.ttl" None (Some EmptyString)) [] foo_world
                  eq_refl eq_refl)).
Defined.

(** A class file with nothing but blank lines gives an empty class list:
    the script ends normally without opening the model file and without
    writing anything. *)
Theorem blank_class_file_writes_nothing (args : Args.t)
  (text_files : Dict.t (list string)) (path : string) (lines : list string)
  (w : World) :
  list_truthy (Args.class_list args) = false ->
  Args.class_path args = Some path ->
  path <> EmptyString ->
  Dict.get path text_files = Some lines ->
  Forall (fun line => strip line = EmptyString) lines ->
  script args text_files w
  = ([LogParsed (length lines - 1) path; LogClassList []], w, Finished).
Proof.
  intros Hlist Hpath Hne Hget Hblank. unfold script.
  rewrite (get_arguments_class_path args text_files path lines Hlist Hpath Hne Hget).
  rewrite filter_none_kept.
  - simpl. unfold io_ret. reflexivity.
  - apply Forall_map. apply Forall_impl with (2 := Hblank).
    intros line ->. reflexivity.
Qed.

Lemma blank_class_file_writes_nothing_witness :
  let w := {| files := []; stdin := [] |} in
  script (Args.mk "missing.ttl" None (Some "classes.txt"))
         [("classes.txt", ["  "; String "010" EmptyString])] w
  = ([LogParsed 1 "classes.txt"; LogClassList []], w, Finished).
Proof.
  intros w.
  apply (blank_class_file_writes_nothing
           (Args.mk "missing.ttl" None (Some "classes.txt"))
           [("classes.txt", ["  "; String "010" EmptyString])] "classes.txt"
           ["  "; String "010" EmptyString] w eq_refl eq_refl);
    [discriminate | reflexivity | repeat constructor].
Defined.

